(** * TableDetector: green-felt table detection (src/cv/table_detector.py)
    and the frame loop that drives it (main.py)

    A shallow embedding of [TableDetector.detect_table], of
    [process_frame] and [main], and of the OpenCV calls they are built
    from.  The calls whose meaning is a short, documented formula
    ([cv2.inRange], [cv2.morphologyEx] with a rectangular kernel, the
    argument checks of [cv2.cvtColor], Python's [max(..., key=...)]) are
    written out.  The ones that are whole algorithms of the library (the
    per-pixel BGR->HSV arithmetic, border following in [cv2.findContours],
    [cv2.contourArea], the drawing calls) are parameters of the
    development: every theorem holds for whatever the library computes
    there.  Console, windows and keyboard are an explicit session. *)

From Stdlib Require Import List ZArith QArith Bool Lia Permutation.
From Stdlib Require String DecimalString.
Import ListNotations.
Import String.StringSyntax.
Delimit Scope string_scope with string.
Open Scope Z_scope.

(** ** Indexed maps over rows and cells *)

Fixpoint mapi_from {A B : Type} (i : Z) (f : Z -> A -> B) (l : list A) : list B :=
  match l with
  | [] => []
  | a :: l' => f i a :: mapi_from (i + 1) f l'
  end.

Definition mapi {A B : Type} (f : Z -> A -> B) (l : list A) : list B :=
  mapi_from 0 f l.

Definition Qltb (a b : Q) : bool := negb (Qle_bool b a).

(** ** The part of OpenCV that [detect_table] calls *)

Module cv2.

(** A [numpy] array of [uint8] as the capture layer hands it over:
    [frame[y][x][ch]]. A two-dimensional (grayscale) array is the case of
    one channel per pixel. *)
Definition ndarray := list (list (list Z)).

(** Three-channel image after colour conversion, and single-channel image. *)
Definition Mat3 := list (list (Z * Z * Z)).
Definition Mat1 := list (list Z).

Definition Point := (Z * Z)%type.
Definition Contour := list Point.

(** [cv2.error], with the check that failed. *)
Inductive error : Type :=
| Assertion_src_not_empty
| Invalid_number_of_channels (scn : nat).

Definition rows (a : ndarray) : nat := length a.
Definition cols (a : ndarray) : nat := length (hd [] a).
Definition channels (a : ndarray) : nat := length (hd [] (hd [] a)).

Definition empty (a : ndarray) : bool :=
  (rows a =? 0)%nat || (cols a =? 0)%nat.

(** [cv2.cvtColor(src, cv2.COLOR_BGR2HSV)]: the source must not be empty and
    must have 3 or 4 channels (blue, green, red and an ignored alpha); the
    result has 3 channels. [bgr2hsv] is the per-pixel conversion. *)
Definition cvtColor_BGR2HSV (bgr2hsv : Z -> Z -> Z -> Z * Z * Z)
    (src : ndarray) : error + Mat3 :=
  if empty src then inl Assertion_src_not_empty
  else if negb ((channels src =? 3)%nat || (channels src =? 4)%nat)
       then inl (Invalid_number_of_channels (channels src))
  else inr (map (map (fun p => bgr2hsv (nth 0 p 0) (nth 1 p 0) (nth 2 p 0))) src).

Definition in_bounds (lowerb upperb p : Z * Z * Z) : bool :=
  let '(l0, l1, l2) := lowerb in
  let '(u0, u1, u2) := upperb in
  let '(p0, p1, p2) := p in
  (l0 <=? p0) && (p0 <=? u0) && (l1 <=? p1) && (p1 <=? u1)
  && (l2 <=? p2) && (p2 <=? u2).

(** [cv2.inRange(src, lowerb, upperb)]: 255 where every channel lies between
    the bounds, both included, 0 elsewhere. *)
Definition inRange (src : Mat3) (lowerb upperb : Z * Z * Z) : Mat1 :=
  map (map (fun p => if in_bounds lowerb upperb p then 255 else 0)) src.

(** [np.ones((h, w), np.uint8)] *)
Definition np_ones (h w : nat) : Mat1 := repeat (repeat 1 w) h.

(** Offsets [(dy, dx)] of the nonzero cells of a structuring element,
    relative to its anchor, the centre cell by default. *)
Definition kernel_offsets (kernel : Mat1) : list (Z * Z) :=
  let ay := Z.of_nat (length kernel) / 2 in
  let ax := Z.of_nat (length (hd [] kernel)) / 2 in
  concat (mapi (fun i row =>
    concat (mapi (fun j k => if k =? 0 then [] else [(i - ay, j - ax)]) row))
    kernel).

Definition at_ (m : Mat1) (y x : Z) : option Z :=
  if (y <? 0) || (x <? 0) then None
  else match nth_error m (Z.to_nat y) with
       | Some row => nth_error row (Z.to_nat x)
       | None => None
       end.

(** The cells of [m] under the structuring element placed at [(y, x)];
    cells outside the image are left out (the default border of the
    morphological filters never wins the minimum or the maximum). *)
Definition window (m : Mat1) (offs : list (Z * Z)) (y x : Z) : list Z :=
  flat_map (fun d => match at_ m (y + fst d) (x + snd d) with
                     | Some v => [v]
                     | None => []
                     end) offs.

Definition dilate (src kernel : Mat1) : Mat1 :=
  let offs := kernel_offsets kernel in
  mapi (fun y row => mapi (fun x _ => fold_right Z.max 0 (window src offs y x)) row) src.

Definition erode (src kernel : Mat1) : Mat1 :=
  let offs := kernel_offsets kernel in
  mapi (fun y row => mapi (fun x _ => fold_right Z.min 255 (window src offs y x)) row) src.

Inductive MorphTypes : Type := MORPH_CLOSE | MORPH_OPEN.

(** [cv2.morphologyEx(src, op, kernel)], one iteration. *)
Definition morphologyEx (src : Mat1) (op : MorphTypes) (kernel : Mat1) : Mat1 :=
  match op with
  | MORPH_CLOSE => erode (dilate src kernel) kernel
  | MORPH_OPEN => dilate (erode src kernel) kernel
  end.

End cv2.

Import cv2.

(** ** Python's [max(iterable, key=...)] on a non-empty sequence

    The running maximum is replaced only by an item whose key is strictly
    greater, so the first item with the greatest key is returned. *)
Definition py_max {A : Type} (key : A -> Q) (first : A) (rest : list A) : A :=
  fold_left (fun best item => if Qltb (key best) (key item) then item else best)
            rest first.

(** ** The detector object and the caller's frame buffer *)

Record TableDetector : Type := mkTableDetector {
  lower_green : Z * Z * Z;
  upper_green : Z * Z * Z
}.

(** [TableDetector.__init__] *)
Definition TableDetector_init : TableDetector :=
  {| lower_green := (35, 50, 50); upper_green := (85, 255, 255) |}.

(** What a call can read and write: the detector it is invoked on and the
    array the caller passed. Both are shared with the caller by reference. *)
Record World : Type := mkWorld {
  self : TableDetector;
  frame : ndarray
}.

Inductive outcome (A : Type) : Type :=
| Returned (a : A)
| Raised (e : cv2.error).
Arguments Returned {A} a.
Arguments Raised {A} e.

(** Computations over the world that may raise. *)
Definition Py (A : Type) : Type := World -> outcome A * World.

Definition ret {A : Type} (a : A) : Py A := fun w => (Returned a, w).

Definition bind {A B : Type} (m : Py A) (k : A -> Py B) : Py B :=
  fun w => match m w with
           | (Returned a, w') => k a w'
           | (Raised e, w') => (Raised e, w')
           end.

Definition call {A : Type} (r : cv2.error + A) : Py A :=
  fun w => match r with
           | inl e => (Raised e, w)
           | inr a => (Returned a, w)
           end.

Definition get_self : Py TableDetector := fun w => (Returned (self w), w).
Definition get_frame : Py ndarray := fun w => (Returned (frame w), w).
Definition put_frame (f : ndarray) : Py unit :=
  fun w => (Returned tt, {| self := self w; frame := f |}).

Notation "x <- m ;; k" := (bind m (fun x => k))
  (at level 61, m at next level, right associativity).

Section Detector.

(** The library algorithms taken as given. *)
Variable bgr2hsv : Z -> Z -> Z -> Z * Z * Z.
(** [cv2.findContours(mask, cv2.RETR_EXTERNAL, cv2.CHAIN_APPROX_SIMPLE)],
    the list of contours it returns. *)
Variable findContours : Mat1 -> list Contour.
Variable contourArea : Contour -> Q.

Definition detect_table : Py (option Contour * Mat1) :=
  frame <- get_frame ;;
  hsv <- call (cvtColor_BGR2HSV bgr2hsv frame) ;;
  self <- get_self ;;
  let mask := inRange hsv (lower_green self) (upper_green self) in
  let kernel := np_ones 5 5 in
  let mask := morphologyEx mask MORPH_CLOSE kernel in
  let mask := morphologyEx mask MORPH_OPEN kernel in
  let contours := findContours mask in
  match contours with
  | [] => ret (None, mask)
  | first :: rest =>
      let table_contour := py_max contourArea first rest in
      if Qltb (contourArea table_contour) 1000
      then ret (None, mask)
      else ret (Some table_contour, mask)
  end.

End Detector.

(** ** The stages of [detect_table] as functions of the detector and the
    converted frame, and the call as a function of its two inputs *)

Definition threshold_mask (self : TableDetector) (hsv : Mat3) : Mat1 :=
  inRange hsv (lower_green self) (upper_green self).

Definition cleaned_mask (self : TableDetector) (hsv : Mat3) : Mat1 :=
  morphologyEx (morphologyEx (threshold_mask self hsv) MORPH_CLOSE (np_ones 5 5))
               MORPH_OPEN (np_ones 5 5).

Definition select_contour (contourArea : Contour -> Q) (contours : list Contour)
    : option Contour :=
  match contours with
  | [] => None
  | first :: rest =>
      let table_contour := py_max contourArea first rest in
      if Qltb (contourArea table_contour) 1000 then None else Some table_contour
  end.

Definition detect_result (bgr2hsv : Z -> Z -> Z -> Z * Z * Z)
    (findContours : Mat1 -> list Contour) (contourArea : Contour -> Q)
    (self : TableDetector) (frame : ndarray) : outcome (option Contour * Mat1) :=
  match cvtColor_BGR2HSV bgr2hsv frame with
  | inl e => Raised e
  | inr hsv =>
      let mask := cleaned_mask self hsv in
      Returned (select_contour contourArea (findContours mask), mask)
  end.

(** The drawing half of [process_frame] (main.py): the caller, not the
    detector, paints the contour and its corner marks into the frame.
    [drawContours] and [draw_corners] stand for the library's rasterisers. *)
Definition process_frame_draw (bgr2hsv : Z -> Z -> Z -> Z * Z * Z)
    (findContours : Mat1 -> list Contour) (contourArea : Contour -> Q)
    (drawContours : ndarray -> list Contour -> ndarray)
    (draw_corners : ndarray -> Contour -> ndarray)
    : Py (option Contour * Mat1) :=
  r <- detect_table bgr2hsv findContours contourArea ;;
  match fst r with
  | Some table_contour =>
      frame <- get_frame ;;
      _ <- put_frame (draw_corners (drawContours frame [table_contour]) table_contour) ;;
      ret r
  | None => ret r
  end.

(** ** Predicates on images *)

Definition binary (m : Mat1) : Prop :=
  Forall (Forall (fun v => v = 0 \/ v = 255)) m.

Definition blank (m : Mat1) : Prop :=
  Forall (Forall (fun v => v = 0)) m.

(** Same number of rows, and row by row the same number of cells. *)
Definition same_size {A B : Type} (a : list (list A)) (b : list (list B)) : Prop :=
  Forall2 (fun ra rb => length ra = length rb) a b.

(** ** Executable stand-ins for the library parameters

    Used to run the detector on concrete frames. [bgr2hsv] is the 8-bit
    hue/saturation/value formula with hue halved into 0..179;
    [findContours] returns the corner points of the bounding rectangle of the
    nonzero cells, which is the external contour of a mask whose nonzero
    region is one solid rectangle; [contourArea] is the shoelace formula. *)

Module Reference.

Definition rdiv (n d : Z) : Z := (2 * n + d) / (2 * d).

Definition bgr2hsv (b g r : Z) : Z * Z * Z :=
  let v := Z.max b (Z.max g r) in
  let vmin := Z.min b (Z.min g r) in
  let diff := v - vmin in
  let s := if v =? 0 then 0 else rdiv (255 * diff) v in
  let h := if diff =? 0 then 0
           else if v =? r then rdiv (30 * (g - b)) diff
           else if v =? g then rdiv (30 * (b - r + 2 * diff)) diff
           else rdiv (30 * (r - g + 4 * diff)) diff in
  ((if h <? 0 then h + 180 else h), s, v).

Definition nonzero_points (m : Mat1) : list Point :=
  concat (mapi (fun y row =>
    concat (mapi (fun x v => if v =? 0 then [] else [(x, y)]) row)) m).

Definition findContours (m : Mat1) : list Contour :=
  match nonzero_points m with
  | [] => []
  | p :: ps =>
      let x0 := fold_right Z.min (fst p) (map fst ps) in
      let x1 := fold_right Z.max (fst p) (map fst ps) in
      let y0 := fold_right Z.min (snd p) (map snd ps) in
      let y1 := fold_right Z.max (snd p) (map snd ps) in
      [[(x0, y0); (x0, y1); (x1, y1); (x1, y0)]]
  end.

Fixpoint shoelace (prev : Point) (c : Contour) : Z :=
  match c with
  | [] => 0
  | p :: c' => fst prev * snd p - snd prev * fst p + shoelace p c'
  end.

Definition contourArea (c : Contour) : Q :=
  Qmake (Z.abs (shoelace (last c (0, 0)) c)) 2.

(** A [h] x [w] frame of colour [bg] with the rectangle of rows [y0..y1] and
    columns [x0..x1] (both ends included) filled with [fg]. *)
Definition rect_frame (h w : nat) (bg fg : list Z) (y0 y1 x0 x1 : Z) : ndarray :=
  mapi (fun y _ =>
    mapi (fun x _ =>
      if (y0 <=? y) && (y <=? y1) && (x0 <=? x) && (x <=? x1) then fg else bg)
      (repeat tt w)) (repeat tt h).

Definition black : list Z := [0; 0; 0].
Definition forest_green : list Z := [34; 139; 34].

(** A contour finder that reports the given contours whatever the mask. *)
Definition findContours_fixed (cs : list Contour) (m : Mat1) : list Contour := cs.

Definition square (x y side : Z) : Contour :=
  [(x, y); (x, y + side); (x + side, y + side); (x + side, y)].

Definition black_frame : ndarray := rect_frame 8 8 black black 0 0 0 0.
Definition speck_frame : ndarray := rect_frame 14 14 black forest_green 3 10 3 10.
Definition table_frame : ndarray := rect_frame 40 40 black forest_green 3 36 3 36.
Definition bgra_frame : ndarray := [[[0; 255; 0; 255]]].
Definition gray_frame : ndarray := [[[0]; [128]]; [[255]; [64]]].

(** Two five-row bars one column apart: closing bridges the gap and the
    bridge survives opening, opening first wipes both bars. *)
Definition two_bars : Mat1 :=
  mapi (fun y _ =>
    mapi (fun x _ =>
      if (3 <=? y) && (y <=? 7) && (3 <=? x) && (x <=? 9) && negb (x =? 6)
      then 255 else 0) (repeat tt 13)) (repeat tt 11).

(** A freshly constructed detector handed the frame [f]. *)
Definition world (f : ndarray) : World :=
  {| self := TableDetector_init; frame := f |}.

Definition detect (f : ndarray) : outcome (option Contour * Mat1) * World :=
  detect_table bgr2hsv findContours contourArea (world f).

(** The converted image and the cleaned mask of a three-channel frame. *)
Definition cvt (f : ndarray) : Mat3 :=
  map (map (fun p => bgr2hsv (nth 0 p 0) (nth 1 p 0) (nth 2 p 0))) f.

Definition mask_of (f : ndarray) : Mat1 :=
  cleaned_mask TableDetector_init (cvt f).

Definition no_green (hsv : Mat3) : bool :=
  forallb (forallb (fun p => negb (in_bounds (35, 50, 50) (85, 255, 255) p))) hsv.

End Reference.

(** ** main.py: one frame through [process_frame], and the capture loop

    The program's surroundings are explicit: the lines it has printed, the
    images it has handed to [cv2.imshow], and what the coming calls of
    [cv2.waitKey] will give. *)

Module Main.

(** What [cv2.imshow] is handed: the colour frame or the mask. *)
Inductive image : Type :=
| Colour (a : ndarray)
| Gray (m : Mat1).

Record Session : Type := mkSession {
  (** lines printed so far, oldest first *)
  stdout : list String.string;
  (** whether [cv2.imshow] can open a window; it raises when it cannot *)
  display : bool;
  (** window name and image of every [cv2.imshow] that went through *)
  windows : list (String.string * image);
  (** what the coming calls of [cv2.waitKey] give: a key code, -1 when no
      key came within the delay, [None] when the call raises *)
  keys : list (option Z);
  (** [cap.release()] was called *)
  released : bool;
  (** [cv2.destroyAllWindows()] was called *)
  destroyed : bool
}.

(** How a run of main.py can fail: [detect_table] raised, or [cv2.waitKey]
    did. *)
Inductive failure : Type :=
| DetectionFailed (e : cv2.error)
| WaitKeyFailed.

Inductive result (A : Type) : Type :=
| Done (a : A)
| Failed (f : failure).
Arguments Done {A} a.
Arguments Failed {A} f.

Definition print (line : String.string) (s : Session) : Session :=
  {| stdout := stdout s ++ [line]; display := display s; windows := windows s;
     keys := keys s; released := released s; destroyed := destroyed s |}.

(** [cv2.imshow(name, img)]; [None] when it raises. *)
Definition imshow (name : String.string) (img : image) (s : Session)
    : option Session :=
  if display s
  then Some {| stdout := stdout s; display := display s;
               windows := windows s ++ [(name, img)];
               keys := keys s; released := released s; destroyed := destroyed s |}
  else None.

(** The key the next [cv2.waitKey] gives; -1 once the list is used up. *)
Definition next_key (s : Session) : option Z :=
  match keys s with
  | [] => Some (-1)
  | k :: _ => k
  end.

Definition waitKey (s : Session) : option Z * Session :=
  (next_key s,
   {| stdout := stdout s; display := display s; windows := windows s;
      keys := tl (keys s); released := released s; destroyed := destroyed s |}).

Definition release (s : Session) : Session :=
  {| stdout := stdout s; display := display s; windows := windows s;
     keys := keys s; released := true; destroyed := destroyed s |}.

Definition destroyAllWindows (s : Session) : Session :=
  {| stdout := stdout s; display := display s; windows := windows s;
     keys := keys s; released := released s; destroyed := true |}.

(** [str(n)] for a length. *)
Definition str (n : nat) : String.string :=
  DecimalString.NilZero.string_of_uint (Nat.to_uint n).

Section Program.

Variable bgr2hsv : Z -> Z -> Z -> Z * Z * Z.
Variable findContours : Mat1 -> list Contour.
Variable contourArea : Contour -> Q.
(** [cv2.drawContours(frame, contours, -1, (0, 255, 0), 2)], the frame after it *)
Variable drawContours : ndarray -> list Contour -> ndarray.
(** [cv2.approxPolyDP(c, 0.02 * cv2.arcLength(c, True), True)], its points *)
Variable approx_corners : Contour -> list Point.
(** [cv2.circle(frame, centre, 5, (0, 0, 255), -1)], the frame after it *)
Variable circle : ndarray -> Point -> ndarray.

(** [process_frame(frame, detector, wait)]: the detector and the frame are
    the two parts of the world, the frame being drawn into in place. *)
Definition process_frame (w : World) (wait : Z) (s : Session)
    : result bool * World * Session :=
  match detect_table bgr2hsv findContours contourArea w with
  | (Raised e, w1) => (Failed (DetectionFailed e), w1, s)
  | (Returned (table_contour, table_mask), w1) =>
      let '(w2, s2) :=
        match table_contour with
        | Some c =>
            let s1 := print "Table detected!"%string s in
            let drawn := drawContours (frame w1) [c] in
            let approx := approx_corners c in
            let dotted := fold_left circle approx drawn in
            ({| self := self w1; frame := dotted |},
             print (String.append "Corners detected: "%string (str (length approx))) s1)
        | None => (w1, print "No table detected."%string s)
        end in
      let s3 :=
        match imshow "AR 8-Ball"%string (Colour (frame w2)) s2 with
        | Some s' =>
            match imshow "Table Mask"%string (Gray table_mask) s' with
            | Some s'' => s''
            | None => s'
            end
        | None => s2
        end in
      if 0 <? wait then
        match waitKey s3 with
        | (Some key, s4) =>
            if Z.land key 255 =? 113 then (Done false, w2, s4)
            else (Done true, w2, s4)
        | (None, s4) => (Failed WaitKeyFailed, w2, s4)
        end
      else
        match waitKey s3 with
        | (Some _, s4) => (Done true, w2, s4)
        | (None, s4) => (Failed WaitKeyFailed, w2, s4)
        end
  end.

(** The [while True] loop of [main]; [frames] are the frames [cap.read()]
    delivers before a read fails. *)
Fixpoint capture_loop (table_detector : TableDetector) (frames : list ndarray)
    (s : Session) : result unit * Session :=
  match frames with
  | [] => (Done tt, print "Failed to grab frame"%string s)
  | f :: rest =>
      match process_frame {| self := table_detector; frame := f |} 1 s with
      | (Failed e, _, s') => (Failed e, s')
      | (Done false, _, s') => (Done tt, s')
      | (Done true, w', s') => capture_loop (self w') rest s'
      end
  end.

(** [main()]. [image] is [args.image]; [imread] gives the decoded file, if
    it can be read; [camera] gives the frames of capture device 0, if it
    opens. *)
Definition main (image : option String.string)
    (imread : String.string -> option ndarray)
    (camera : option (list ndarray)) (s : Session) : result unit * Session :=
  let table_detector := TableDetector_init in
  match image with
  | Some (String.String c path) =>
      match imread (String.String c path) with
      | None =>
          (Done tt,
           print (String.append "Error: Could not read image "%string (String.String c path)) s)
      | Some frame =>
          match process_frame {| self := table_detector; frame := frame |} 0 s with
          | (Failed e, _, s') => (Failed e, s')
          | (Done _, _, s') => (Done tt, destroyAllWindows s')
          end
      end
  | _ =>
      match camera with
      | None => (Done tt, print "Error: Could not open video capture."%string s)
      | Some frames =>
          match capture_loop table_detector frames s with
          | (Failed e, s') => (Failed e, s')
          | (Done _, s') => (Done tt, destroyAllWindows (release s'))
          end
      end
  end.

End Program.

End Main.

(** Stand-ins for the drawing calls, to run main.py on concrete frames:
    the contour's points and the corner marks are painted as single pixels,
    and the polygon approximation keeps every point. *)

Module Paint.

Definition set_pixel (colour : list Z) (f : ndarray) (p : Point) : ndarray :=
  mapi (fun y row =>
    mapi (fun x old => if (x =? fst p) && (y =? snd p) then colour else old) row) f.

Definition drawContours (f : ndarray) (cs : list Contour) : ndarray :=
  fold_left (set_pixel [0; 255; 0]) (concat cs) f.

Definition approx_corners (c : Contour) : list Point := c.

Definition circle (f : ndarray) (p : Point) : ndarray := set_pixel [0; 0; 255] f p.

Definition process_frame : World -> Z -> Main.Session -> Main.result bool * World * Main.Session :=
  Main.process_frame Reference.bgr2hsv Reference.findContours Reference.contourArea
    drawContours approx_corners circle.

Definition capture_loop : TableDetector -> list ndarray -> Main.Session
    -> Main.result unit * Main.Session :=
  Main.capture_loop Reference.bgr2hsv Reference.findContours Reference.contourArea
    drawContours approx_corners circle.

Definition main : option String.string -> (String.string -> option ndarray)
    -> option (list ndarray) -> Main.Session -> Main.result unit * Main.Session :=
  Main.main Reference.bgr2hsv Reference.findContours Reference.contourArea
    drawContours approx_corners circle.

(** A session with nothing printed or shown yet and the given keys to come. *)
Definition session (display : bool) (keys : list (option Z)) : Main.Session :=
  {| Main.stdout := []; Main.display := display; Main.windows := [];
     Main.keys := keys; Main.released := false; Main.destroyed := false |}.

Definition green_frame : ndarray :=
  Reference.rect_frame 6 6 Reference.forest_green Reference.forest_green 0 0 0 0.

(** The speck frame with an opaque alpha channel added. *)
Definition bgra_table : ndarray :=
  map (map (fun p => p ++ [255])) Reference.speck_frame.

End Paint.

(** The session with its window system switched on or off. *)
Definition set_display (on : bool) (s : Main.Session) : Main.Session :=
  {| Main.stdout := Main.stdout s; Main.display := on;
     Main.windows := Main.windows s; Main.keys := Main.keys s;
     Main.released := Main.released s; Main.destroyed := Main.destroyed s |}.

(** A frame [cv2.cvtColor] converts: it has pixels, of 3 or 4 channels. *)
Definition convertible (f : ndarray) : Prop :=
  rows f <> 0%nat /\ cols f <> 0%nat
  /\ (channels f = 3%nat \/ channels f = 4%nat).

(** The low byte of a key code is that of the letter q. *)
Definition is_quit (key : Z) : Prop := key mod 256 = 113.

(** Every triple of the converted image lies within the bounds. *)
Definition all_within (lo hi : Z * Z * Z) (hsv : Mat3) : bool :=
  forallb (forallb (in_bounds lo hi)) hsv.

(** The first three channels of every pixel, [frame[:, :, :3]]. *)
Definition drop_alpha (f : ndarray) : ndarray := map (map (firstn 3)) f.

(** [m[y][x]], if the indices are inside the image. *)
Definition cell {A : Type} (m : list (list A)) (y x : nat) : option A :=
  match nth_error m y with
  | Some row => nth_error row x
  | None => None
  end.

(** The target range of [TableDetector.__init__], channel by channel. *)
Definition in_green_range (p : Z * Z * Z) : Prop :=
  let '(h, s, v) := p in
  35 <= h <= 85 /\ 50 <= s <= 255 /\ 50 <= v <= 255.

(** The frames the specification calls malformed: no pixels at all (no rows
    or no columns), or a channel count other than the three it requires. *)
Definition malformed (f : ndarray) : Prop :=
  rows f = 0%nat \/ cols f = 0%nat \/ channels f <> 3%nat.

(** ** What dilating and eroding by the 5 x 5 square mean

    Stated on the cells alone, without the structuring element's list of
    offsets: the filters of [cv2] are checked against these. *)

(** Cells at most two rows and two columns apart: the reach of a 5 x 5
    element anchored at its centre. *)
Definition within_5x5 (y x y' x' : Z) : Prop :=
  Z.abs (y' - y) <= 2 /\ Z.abs (x' - x) <= 2.

(** [b] is [a] dilated: it has the cells of [a], and each holds the greatest
    value [a] has within reach inside the image (and nothing below 0, the
    least value of a [uint8] image). *)
Definition dilated_5x5 (a b : Mat1) : Prop :=
  same_size a b
  /\ forall y x,
       match at_ a y x with
       | None => at_ b y x = None
       | Some _ =>
           exists v, at_ b y x = Some v /\ 0 <= v
             /\ (forall y' x' u,
                   within_5x5 y x y' x' -> at_ a y' x' = Some u -> u <= v)
             /\ (v = 0 \/ exists y' x',
                             within_5x5 y x y' x' /\ at_ a y' x' = Some v)
       end.

(** [b] is [a] eroded: it has the cells of [a], and each holds the least
    value [a] has within reach inside the image (and nothing above 255). *)
Definition eroded_5x5 (a b : Mat1) : Prop :=
  same_size a b
  /\ forall y x,
       match at_ a y x with
       | None => at_ b y x = None
       | Some _ =>
           exists v, at_ b y x = Some v /\ v <= 255
             /\ (forall y' x' u,
                   within_5x5 y x y' x' -> at_ a y' x' = Some u -> v <= u)
             /\ (v = 255 \/ exists y' x',
                               within_5x5 y x y' x' /\ at_ a y' x' = Some v)
       end.

(** * Properties *)

(** ** Comparison of areas *)

Lemma Qltb_true (a b : Q) : Qltb a b = true <-> (a < b)%Q.
Proof.
  unfold Qltb. rewrite negb_true_iff. split; intro H.
  - apply Qnot_le_lt. intro Hle. apply Qle_bool_iff in Hle. congruence.
  - destruct (Qle_bool b a) eqn:E; [|reflexivity].
    apply Qle_bool_iff in E. exfalso. exact (Qlt_not_le _ _ H E).
Qed.

Lemma Qltb_false (a b : Q) : Qltb a b = false <-> (b <= a)%Q.
Proof.
  unfold Qltb. rewrite negb_false_iff. apply Qle_bool_iff.
Qed.

(** ** [max] returns the first item of greatest key *)

Section PyMax.

Context {A : Type} (key : A -> Q).

Let step (best item : A) : A :=
  if Qltb (key best) (key item) then item else best.

Lemma py_max_cons (first a : A) (rest : list A) :
  py_max key first (a :: rest) = py_max key (step first a) rest.
Proof. reflexivity. Qed.

Lemma py_max_scan (rest l1 l2 : list A) (best : A) :
  (forall x, In x l1 -> (key x < key best)%Q) ->
  (forall x, In x l2 -> (key x <= key best)%Q) ->
  exists l1' l2',
    l1 ++ best :: l2 ++ rest = l1' ++ py_max key best rest :: l2'
    /\ (forall x, In x l1' -> (key x < key (py_max key best rest))%Q)
    /\ (forall x, In x l2' -> (key x <= key (py_max key best rest))%Q).
Proof.
  revert l1 l2 best.
  induction rest as [|a rest IH]; intros l1 l2 best Hlt Hle.
  - exists l1, l2. rewrite app_nil_r. auto.
  - rewrite py_max_cons. unfold step.
    destruct (Qltb (key best) (key a)) eqn:E.
    + apply Qltb_true in E.
      destruct (IH (l1 ++ best :: l2) [] a) as (l1' & l2' & Heq & H1 & H2).
      * intros x Hx. apply in_app_or in Hx. destruct Hx as [Hx|[Hx|Hx]].
        -- eapply Qlt_trans; [apply Hlt, Hx | exact E].
        -- subst x. exact E.
        -- eapply Qle_lt_trans; [apply Hle, Hx | exact E].
      * intros x [].
      * exists l1', l2'. split; [|auto].
        rewrite <- Heq. rewrite <- app_assoc. reflexivity.
    + apply Qltb_false in E.
      destruct (IH l1 (l2 ++ [a]) best) as (l1' & l2' & Heq & H1 & H2).
      * exact Hlt.
      * intros x Hx. apply in_app_or in Hx. destruct Hx as [Hx|[Hx|[]]].
        -- apply Hle, Hx.
        -- subst x. exact E.
      * exists l1', l2'. split; [|auto].
        rewrite <- Heq. rewrite <- app_assoc. reflexivity.
Qed.

Lemma py_max_split (first : A) (rest : list A) :
  exists l1 l2,
    first :: rest = l1 ++ py_max key first rest :: l2
    /\ (forall x, In x l1 -> (key x < key (py_max key first rest))%Q)
    /\ (forall x, In x l2 -> (key x <= key (py_max key first rest))%Q).
Proof.
  destruct (py_max_scan rest [] [] first) as (l1 & l2 & Heq & H1 & H2);
    try (intros x []).
  exists l1, l2. auto.
Qed.

Lemma py_max_In (first : A) (rest : list A) :
  In (py_max key first rest) (first :: rest).
Proof.
  destruct (py_max_split first rest) as (l1 & l2 & Heq & _).
  rewrite Heq. apply in_elt.
Qed.

Lemma py_max_ge (first : A) (rest : list A) (x : A) :
  In x (first :: rest) -> (key x <= key (py_max key first rest))%Q.
Proof.
  destruct (py_max_split first rest) as (l1 & l2 & Heq & H1 & H2).
  rewrite Heq. intro Hx. apply in_app_or in Hx. destruct Hx as [Hx|[Hx|Hx]].
  - apply Qlt_le_weak, H1, Hx.
  - subst x. apply Qle_refl.
  - apply H2, Hx.
Qed.

End PyMax.

(** ** Indexed maps *)

Lemma mapi_from_length {A B : Type} (f : Z -> A -> B) (l : list A) (i : Z) :
  length (mapi_from i f l) = length l.
Proof.
  revert i. induction l as [|a l IH]; intro i; simpl; [reflexivity|].
  now rewrite IH.
Qed.

Lemma mapi_from_Forall2 {A B : Type} (R : A -> B -> Prop) (f : Z -> A -> B)
    (l : list A) (i : Z) :
  (forall j a, R a (f j a)) -> Forall2 R l (mapi_from i f l).
Proof.
  intro H. revert i. induction l as [|a l IH]; intro i; simpl; constructor; auto.
Qed.

Lemma mapi_from_Forall {A B : Type} (P : B -> Prop) (f : Z -> A -> B)
    (l : list A) (i : Z) :
  (forall j a, nth_error l j = Some a -> P (f (i + Z.of_nat j) a)) ->
  Forall P (mapi_from i f l).
Proof.
  revert i. induction l as [|a l IH]; intros i H; simpl; constructor.
  - specialize (H 0%nat a eq_refl). now rewrite Z.add_0_r in H.
  - apply IH. intros j b Hj. specialize (H (S j) b Hj).
    replace (i + 1 + Z.of_nat j) with (i + Z.of_nat (S j)) by lia. exact H.
Qed.

(** ** Sizes of the intermediate images *)

Lemma same_size_map {A B : Type} (g : A -> B) (a : list (list A)) :
  same_size a (map (map g) a).
Proof.
  unfold same_size. induction a as [|r a IH]; simpl; constructor; auto.
  symmetry. apply length_map.
Qed.

Lemma same_size_trans {A B C : Type}
    (a : list (list A)) (b : list (list B)) (c : list (list C)) :
  same_size a b -> same_size b c -> same_size a c.
Proof.
  unfold same_size. intro Hab. revert c.
  induction Hab as [|ra rb a b Hr Hab IH]; intros c Hbc; inversion Hbc; subst;
    constructor; [congruence | auto].
Qed.

Lemma same_size_dilate (m k : Mat1) : same_size m (dilate m k).
Proof.
  unfold same_size, dilate, mapi. apply mapi_from_Forall2.
  intros j row. symmetry. apply mapi_from_length.
Qed.

Lemma same_size_erode (m k : Mat1) : same_size m (erode m k).
Proof.
  unfold same_size, erode, mapi. apply mapi_from_Forall2.
  intros j row. symmetry. apply mapi_from_length.
Qed.

Lemma same_size_morphologyEx (m : Mat1) (op : MorphTypes) (k : Mat1) :
  same_size m (morphologyEx m op k).
Proof.
  destruct op; simpl;
    eauto using same_size_trans, same_size_dilate, same_size_erode.
Qed.

(** ** Cells under the structuring element *)

Lemma at_In (m : Mat1) (y x v : Z) :
  at_ m y x = Some v -> exists row, In row m /\ In v row.
Proof.
  unfold at_. destruct ((y <? 0) || (x <? 0)); [discriminate|].
  destruct (nth_error m (Z.to_nat y)) as [row|] eqn:Er; [|discriminate].
  intro Hx. exists row. split; eapply nth_error_In; eassumption.
Qed.

Lemma at_nth (m : Mat1) (jy jx : nat) (row : list Z) (v : Z) :
  nth_error m jy = Some row -> nth_error row jx = Some v ->
  at_ m (0 + Z.of_nat jy) (0 + Z.of_nat jx) = Some v.
Proof.
  intros Hy Hx. unfold at_. simpl.
  replace (Z.of_nat jy <? 0) with false by (symmetry; apply Z.ltb_ge; lia).
  replace (Z.of_nat jx <? 0) with false by (symmetry; apply Z.ltb_ge; lia).
  simpl. rewrite !Nat2Z.id, Hy. exact Hx.
Qed.

Lemma window_In (m : Mat1) (offs : list (Z * Z)) (y x v : Z) :
  In v (window m offs y x) -> exists row, In row m /\ In v row.
Proof.
  unfold window. rewrite in_flat_map. intros (d & _ & Hv).
  destruct (at_ m (y + fst d) (x + snd d)) as [u|] eqn:E; [|contradiction].
  destruct Hv as [<-|[]]. eapply at_In; eassumption.
Qed.

Lemma window_centre (m : Mat1) (offs : list (Z * Z)) (y x v : Z) :
  In (0, 0) offs -> at_ m y x = Some v -> In v (window m offs y x).
Proof.
  intros Hc Hv. unfold window. apply in_flat_map. exists (0, 0). split; [exact Hc|].
  simpl. rewrite !Z.add_0_r, Hv. now left.
Qed.

Lemma centre_in_kernel : In (0, 0) (kernel_offsets (np_ones 5 5)).
Proof. vm_compute. tauto. Qed.

(** ** The mask stays binary *)

Lemma fold_max_binary (l : list Z) :
  Forall (fun v => v = 0 \/ v = 255) l ->
  fold_right Z.max 0 l = 0 \/ fold_right Z.max 0 l = 255.
Proof.
  induction 1 as [|v l Hv _ IH]; simpl; [now left|]. lia.
Qed.

Lemma fold_min_binary (l : list Z) :
  Forall (fun v => v = 0 \/ v = 255) l ->
  fold_right Z.min 255 l = 0 \/ fold_right Z.min 255 l = 255.
Proof.
  induction 1 as [|v l Hv _ IH]; simpl; [now right|]. lia.
Qed.

Lemma window_binary (m : Mat1) (offs : list (Z * Z)) (y x : Z) :
  binary m -> Forall (fun v => v = 0 \/ v = 255) (window m offs y x).
Proof.
  intro Hm. apply Forall_forall. intros v Hv.
  apply window_In in Hv. destruct Hv as (row & Hrow & Hv).
  unfold binary in Hm. rewrite Forall_forall in Hm.
  specialize (Hm row Hrow). rewrite Forall_forall in Hm. auto.
Qed.

Lemma binary_inRange (hsv : Mat3) (lo hi : Z * Z * Z) : binary (inRange hsv lo hi).
Proof.
  unfold binary, inRange. apply Forall_map, Forall_forall. intros row _.
  apply Forall_map, Forall_forall. intros p _.
  destruct (in_bounds lo hi p); auto.
Qed.

Lemma binary_dilate (m k : Mat1) : binary m -> binary (dilate m k).
Proof.
  intro Hm. unfold binary, dilate, mapi.
  apply mapi_from_Forall. intros jy row _.
  apply mapi_from_Forall. intros jx v _.
  apply fold_max_binary, window_binary, Hm.
Qed.

Lemma binary_erode (m k : Mat1) : binary m -> binary (erode m k).
Proof.
  intro Hm. unfold binary, erode, mapi.
  apply mapi_from_Forall. intros jy row _.
  apply mapi_from_Forall. intros jx v _.
  apply fold_min_binary, window_binary, Hm.
Qed.

Lemma binary_morphologyEx (m : Mat1) (op : MorphTypes) (k : Mat1) :
  binary m -> binary (morphologyEx m op k).
Proof.
  destruct op; simpl; auto using binary_dilate, binary_erode.
Qed.

(** ** A blank mask stays blank *)

Lemma window_blank (m : Mat1) (offs : list (Z * Z)) (y x : Z) :
  blank m -> Forall (fun v => v = 0) (window m offs y x).
Proof.
  intro Hm. apply Forall_forall. intros v Hv.
  apply window_In in Hv. destruct Hv as (row & Hrow & Hv).
  unfold blank in Hm. rewrite Forall_forall in Hm.
  specialize (Hm row Hrow). rewrite Forall_forall in Hm. auto.
Qed.

Lemma fold_max_zero (l : list Z) :
  Forall (fun v => v = 0) l -> fold_right Z.max 0 l = 0.
Proof.
  induction 1 as [|v l Hv _ IH]; simpl; [reflexivity|]. lia.
Qed.

Lemma fold_min_zero (l : list Z) :
  Forall (fun v => v = 0) l -> l <> [] -> fold_right Z.min 255 l = 0.
Proof.
  intros H Hne. destruct H as [|v l Hv Hl]; [congruence|]. simpl. subst v.
  clear Hne. induction Hl as [|u l Hu _ IH]; simpl; lia.
Qed.

Lemma blank_dilate (m k : Mat1) : blank m -> blank (dilate m k).
Proof.
  intro Hm. unfold blank, dilate, mapi.
  apply mapi_from_Forall. intros jy row _.
  apply mapi_from_Forall. intros jx v _.
  apply fold_max_zero, window_blank, Hm.
Qed.

Lemma blank_erode (m : Mat1) : blank m -> blank (erode m (np_ones 5 5)).
Proof.
  intro Hm. unfold blank, erode, mapi.
  apply mapi_from_Forall. intros jy row Hy.
  apply mapi_from_Forall. intros jx v Hx.
  apply fold_min_zero; [apply window_blank, Hm|].
  intro Hnil.
  pose proof (window_centre m _ _ _ v centre_in_kernel (at_nth m jy jx row v Hy Hx)) as Hin.
  rewrite Hnil in Hin. contradiction.
Qed.

Lemma blank_cleaned (m : Mat1) :
  blank m ->
  blank (morphologyEx (morphologyEx m MORPH_CLOSE (np_ones 5 5)) MORPH_OPEN (np_ones 5 5)).
Proof.
  intro Hm. simpl. auto using blank_dilate, blank_erode.
Qed.

(** ** Reading cells *)

Lemma cell_map {A B : Type} (g : A -> B) (m : list (list A)) (y x : nat) :
  cell (map (map g) m) y x = option_map g (cell m y x).
Proof.
  unfold cell. rewrite nth_error_map.
  destruct (nth_error m y) as [row|]; simpl; [apply nth_error_map | reflexivity].
Qed.

Lemma cell_In {A : Type} (m : list (list A)) (row : list A) (a : A) :
  In row m -> In a row -> exists y x, cell m y x = Some a.
Proof.
  intros Hrow Ha.
  apply In_nth_error in Hrow. destruct Hrow as [y Hy].
  apply In_nth_error in Ha. destruct Ha as [x Hx].
  exists y, x. unfold cell. now rewrite Hy.
Qed.

Lemma in_bounds_green (p : Z * Z * Z) :
  in_bounds (35, 50, 50) (85, 255, 255) p = true <-> in_green_range p.
Proof.
  destruct p as [[h s] v]. unfold in_bounds, in_green_range.
  rewrite !andb_true_iff, !Z.leb_le. tauto.
Qed.

Lemma concat_all_nil {A : Type} (ls : list (list A)) :
  Forall (fun l => l = []) ls -> concat ls = [].
Proof.
  induction 1 as [|l ls Hl _ IH]; simpl; [reflexivity|]. now rewrite Hl, IH.
Qed.

(** The stand-in contour finder reports nothing on a blank mask. *)
Lemma reference_findContours_blank (m : Mat1) :
  blank m -> Reference.findContours m = [].
Proof.
  intro Hm. unfold Reference.findContours.
  replace (Reference.nonzero_points m) with (@nil Point); [reflexivity|].
  symmetry. unfold Reference.nonzero_points, mapi.
  apply concat_all_nil, mapi_from_Forall. intros jy row Hy.
  apply concat_all_nil, mapi_from_Forall. intros jx v Hx.
  unfold blank in Hm. rewrite Forall_forall in Hm.
  specialize (Hm row (nth_error_In _ _ Hy)). rewrite Forall_forall in Hm.
  rewrite (Hm v (nth_error_In _ _ Hx)). reflexivity.
Qed.

Lemma no_green_cells (hsv : Mat3) :
  Reference.no_green hsv = true ->
  forall y x p, cell hsv y x = Some p -> ~ in_green_range p.
Proof.
  unfold Reference.no_green. rewrite forallb_forall. intros Hall y x p Hp.
  unfold cell in Hp. destruct (nth_error hsv y) as [row|] eqn:Ey; [|discriminate].
  specialize (Hall row (nth_error_In _ _ Ey)). rewrite forallb_forall in Hall.
  specialize (Hall p (nth_error_In _ _ Hp)). apply negb_true_iff in Hall.
  intro Hg. apply in_bounds_green in Hg. congruence.
Qed.

(** Closing then opening is not opening then closing. *)
Lemma close_then_open_is_not_open_then_close :
  let k := np_ones 5 5 in
  morphologyEx (morphologyEx Reference.two_bars MORPH_CLOSE k) MORPH_OPEN k
  <> morphologyEx (morphologyEx Reference.two_bars MORPH_OPEN k) MORPH_CLOSE k.
Proof. vm_compute. discriminate. Qed.

(** ** Reading the filtered images cell by cell *)

Lemma nth_error_mapi_from {A B : Type} (f : Z -> A -> B) (l : list A)
    (i : Z) (j : nat) :
  nth_error (mapi_from i f l) j = option_map (f (i + Z.of_nat j)) (nth_error l j).
Proof.
  revert i j. induction l as [|a l IH]; intros i j.
  - destruct j; reflexivity.
  - destruct j as [|j]; simpl.
    + now rewrite Z.add_0_r.
    + rewrite IH. f_equal. f_equal. lia.
Qed.

Lemma at_cell (m : Mat1) (y x : nat) :
  at_ m (Z.of_nat y) (Z.of_nat x) = cell m y x.
Proof.
  unfold at_, cell.
  replace (Z.of_nat y <? 0) with false by (symmetry; apply Z.ltb_ge; lia).
  replace (Z.of_nat x <? 0) with false by (symmetry; apply Z.ltb_ge; lia).
  simpl. now rewrite !Nat2Z.id.
Qed.

Lemma at_inside (m : Mat1) (y x v : Z) :
  at_ m y x = Some v ->
  0 <= y /\ 0 <= x /\ cell m (Z.to_nat y) (Z.to_nat x) = Some v.
Proof.
  intro H. assert (Hpos : 0 <= y /\ 0 <= x).
  { unfold at_ in H. destruct (y <? 0) eqn:Ey; [discriminate|].
    destruct (x <? 0) eqn:Ex; [discriminate|].
    apply Z.ltb_ge in Ey, Ex. auto. }
  destruct Hpos as [Hy Hx]. repeat split; try assumption.
  rewrite <- at_cell, !Z2Nat.id by assumption. exact H.
Qed.

Lemma at_mapi (m : Mat1) (g : Z -> Z -> Z) (y x : Z) :
  at_ (mapi (fun y' row => mapi (fun x' _ => g y' x') row) m) y x
  = option_map (fun _ => g y x) (at_ m y x).
Proof.
  unfold at_. destruct (y <? 0) eqn:Ey; [reflexivity|].
  destruct (x <? 0) eqn:Ex; [reflexivity|]. simpl.
  apply Z.ltb_ge in Ey, Ex. unfold mapi.
  rewrite nth_error_mapi_from.
  destruct (nth_error m (Z.to_nat y)) as [row|]; [|reflexivity]. simpl.
  rewrite nth_error_mapi_from, !Z.add_0_l, !Z2Nat.id by assumption.
  reflexivity.
Qed.

Lemma at_dilate (m k : Mat1) (y x : Z) :
  at_ (dilate m k) y x
  = option_map (fun _ => fold_right Z.max 0 (window m (kernel_offsets k) y x))
               (at_ m y x).
Proof. unfold dilate. apply (at_mapi m (fun y' x' => fold_right Z.max 0 (window m _ y' x'))). Qed.

Lemma at_erode (m k : Mat1) (y x : Z) :
  at_ (erode m k) y x
  = option_map (fun _ => fold_right Z.min 255 (window m (kernel_offsets k) y x))
               (at_ m y x).
Proof. unfold erode. apply (at_mapi m (fun y' x' => fold_right Z.min 255 (window m _ y' x'))). Qed.

Lemma window_iff (m : Mat1) (offs : list (Z * Z)) (y x v : Z) :
  In v (window m offs y x)
  <-> exists d, In d offs /\ at_ m (y + fst d) (x + snd d) = Some v.
Proof.
  unfold window. rewrite in_flat_map. split; intros (d & Hd & H); exists d; split; auto.
  - destruct (at_ m (y + fst d) (x + snd d)) as [u|]; [|contradiction].
    destruct H as [<-|[]]. reflexivity.
  - rewrite H. now left.
Qed.

Lemma binary_at (m : Mat1) (y x v : Z) :
  binary m -> at_ m y x = Some v -> v = 0 \/ v = 255.
Proof.
  intros Hm Hv. apply at_In in Hv. destruct Hv as (row & Hrow & Hv).
  unfold binary in Hm. rewrite Forall_forall in Hm.
  specialize (Hm row Hrow). rewrite Forall_forall in Hm. auto.
Qed.

(** ** Maximum and minimum over a window *)

Lemma fold_max_ge (l : list Z) (v : Z) : In v l -> v <= fold_right Z.max 0 l.
Proof.
  induction l as [|a l IH]; simpl; [contradiction|]. intros [->|H]; [lia|].
  specialize (IH H). lia.
Qed.

Lemma fold_max_le (l : list Z) (c : Z) :
  0 <= c -> (forall v, In v l -> v <= c) -> fold_right Z.max 0 l <= c.
Proof.
  intros Hc. induction l as [|a l IH]; simpl; intro H; [exact Hc|].
  assert (a <= c) by (apply H; now left).
  assert (fold_right Z.max 0 l <= c) by (apply IH; intros v Hv; apply H; now right).
  lia.
Qed.

Lemma fold_max_In (l : list Z) :
  fold_right Z.max 0 l <> 0 -> In (fold_right Z.max 0 l) l.
Proof.
  induction l as [|a l IH]; simpl; [congruence|]. intro Hne.
  destruct (Z.max_spec a (fold_right Z.max 0 l)) as [[_ E]|[_ E]]; rewrite E in *.
  - right. apply IH, Hne.
  - now left.
Qed.

Lemma fold_min_le (l : list Z) (v : Z) : In v l -> fold_right Z.min 255 l <= v.
Proof.
  induction l as [|a l IH]; simpl; [contradiction|]. intros [->|H]; [lia|].
  specialize (IH H). lia.
Qed.

Lemma fold_min_ge (l : list Z) (c : Z) :
  c <= 255 -> (forall v, In v l -> c <= v) -> c <= fold_right Z.min 255 l.
Proof.
  intros Hc. induction l as [|a l IH]; simpl; intro H; [exact Hc|].
  assert (c <= a) by (apply H; now left).
  assert (c <= fold_right Z.min 255 l) by (apply IH; intros v Hv; apply H; now right).
  lia.
Qed.

(** ** The 5 x 5 structuring element *)

Lemma kernel_5x5 (d : Z * Z) :
  In d (kernel_offsets (np_ones 5 5))
  <-> -2 <= fst d <= 2 /\ -2 <= snd d <= 2.
Proof.
  destruct d as [dy dx]. split.
  - vm_compute. intro H.
    repeat (destruct H as [H|H]; [injection H as <- <-; repeat split; discriminate|]).
    contradiction.
  - simpl. intros [Hy Hx].
    assert (Ey : dy = -2 \/ dy = -1 \/ dy = 0 \/ dy = 1 \/ dy = 2) by lia.
    assert (Ex : dx = -2 \/ dx = -1 \/ dx = 0 \/ dx = 1 \/ dx = 2) by lia.
    clear Hy Hx.
    destruct Ey as [->|[->|[->|[->| ->]]]];
      destruct Ex as [->|[->|[->|[->| ->]]]]; vm_compute; tauto.
Qed.

Lemma kernel_5x5_opposite (d : Z * Z) :
  In d (kernel_offsets (np_ones 5 5)) ->
  In (- fst d, - snd d) (kernel_offsets (np_ones 5 5)).
Proof. rewrite !kernel_5x5. simpl. lia. Qed.

(** ** Erosion shrinks, dilation grows; opening shrinks, closing grows *)

Lemma some_eq {A : Type} (a b : A) : Some a = Some b -> a = b.
Proof. congruence. Qed.

Section Morphology5x5.

Let k := np_ones 5 5.
Let offs := kernel_offsets (np_ones 5 5).

Lemma window_has_centre (m : Mat1) (y x u : Z) :
  at_ m y x = Some u -> In u (window m offs y x).
Proof. intro H. apply window_centre; [apply centre_in_kernel | exact H]. Qed.

(** The cell at [(y, x)] lies in the window of each of its neighbours. *)
Lemma window_has_neighbour (m : Mat1) (y x u : Z) (d : Z * Z) :
  In d offs -> at_ m y x = Some u ->
  In u (window m offs (y + fst d) (x + snd d)).
Proof.
  intros Hd Hu. apply window_iff. exists (- fst d, - snd d). split.
  - apply kernel_5x5_opposite, Hd.
  - cbn [fst snd]. replace (y + fst d + - fst d) with y by lia.
    replace (x + snd d + - snd d) with x by lia. exact Hu.
Qed.

Lemma erode_le (m : Mat1) (y x v : Z) :
  at_ (erode m k) y x = Some v -> exists u, at_ m y x = Some u /\ v <= u.
Proof.
  rewrite at_erode. destruct (at_ m y x) as [u|] eqn:Eu; [|discriminate].
  cbn [option_map]. intro H. apply some_eq in H. subst. exists u. split; [reflexivity|].
  apply fold_min_le, window_has_centre, Eu.
Qed.

Lemma dilate_ge (m : Mat1) (y x u : Z) :
  at_ m y x = Some u -> exists v, at_ (dilate m k) y x = Some v /\ u <= v.
Proof.
  intro Hu. rewrite at_dilate, Hu. cbn [option_map]. eexists. split; [reflexivity|].
  apply fold_max_ge, window_has_centre, Hu.
Qed.

Lemma dilate_near (m : Mat1) (y x v : Z) :
  at_ (dilate m k) y x = Some v -> v <> 0 ->
  exists d, In d offs /\ at_ m (y + fst d) (x + snd d) = Some v.
Proof.
  rewrite at_dilate. destruct (at_ m y x) as [u|]; [|discriminate].
  cbn [option_map]. intros H Hne. apply some_eq in H. subst.
  apply window_iff, fold_max_In, Hne.
Qed.

Lemma erode_ge (m : Mat1) (y x u c : Z) :
  at_ m y x = Some u -> c <= 255 ->
  (forall d v, In d offs -> at_ m (y + fst d) (x + snd d) = Some v -> c <= v) ->
  exists v, at_ (erode m k) y x = Some v /\ c <= v.
Proof.
  intros Hu Hc Hall. rewrite at_erode, Hu. cbn [option_map]. eexists. split; [reflexivity|].
  apply fold_min_ge; [exact Hc|]. intros v Hv.
  apply window_iff in Hv. destruct Hv as (d & Hd & Hv). eauto.
Qed.

Lemma opening_le (m : Mat1) (y x v : Z) :
  binary m -> at_ (dilate (erode m k) k) y x = Some v ->
  exists u, at_ m y x = Some u /\ v <= u.
Proof.
  intros Hm. rewrite at_dilate.
  destruct (at_ (erode m k) y x) as [e|] eqn:Ee; [|discriminate].
  cbn [option_map]. intro H. apply some_eq in H. subst.
  destruct (erode_le m y x e Ee) as (u & Hu & _).
  exists u. split; [exact Hu|].
  apply fold_max_le.
  - destruct (binary_at m y x u Hm Hu); lia.
  - intros e' He'. apply window_iff in He'. destruct He' as (d & Hd & He').
    rewrite at_erode in He'.
    destruct (at_ m (y + fst d) (x + snd d)); [|discriminate].
    cbn [option_map] in He'. apply some_eq in He'. subst.
    apply fold_min_le, window_has_neighbour; assumption.
Qed.

Lemma closing_ge (m : Mat1) (y x u : Z) :
  binary m -> at_ m y x = Some u ->
  exists v, at_ (erode (dilate m k) k) y x = Some v /\ u <= v.
Proof.
  intros Hm Hu.
  destruct (dilate_ge m y x u Hu) as (v0 & Hv0 & _).
  apply (erode_ge (dilate m k) y x v0 u Hv0).
  - destruct (binary_at m y x u Hm Hu); lia.
  - intros d v Hd Hv. rewrite at_dilate in Hv.
    destruct (at_ m (y + fst d) (x + snd d)); [|discriminate].
    cbn [option_map] in Hv. apply some_eq in Hv. subst.
    apply fold_max_ge, window_has_neighbour; assumption.
Qed.

(** Filtering keeps the set of cells: a cell of the filtered image is a cell
    of the image. *)
Lemma at_dilate_some (m : Mat1) (y x v : Z) :
  at_ (dilate m k) y x = Some v -> exists u, at_ m y x = Some u.
Proof. rewrite at_dilate. destruct (at_ m y x); [eauto|discriminate]. Qed.

Lemma at_erode_some (m : Mat1) (y x v : Z) :
  at_ (erode m k) y x = Some v -> exists u, at_ m y x = Some u.
Proof. rewrite at_erode. destruct (at_ m y x); [eauto|discriminate]. Qed.

End Morphology5x5.

Lemma cell_inRange (hsv : Mat3) (lo hi : Z * Z * Z) (y x : nat) :
  cell (inRange hsv lo hi) y x
  = option_map (fun p => if in_bounds lo hi p then 255 else 0) (cell hsv y x).
Proof. unfold inRange. apply cell_map. Qed.

(** A frame the colour conversion takes. *)
Lemma cvtColor_accepts (bgr2hsv : Z -> Z -> Z -> Z * Z * Z) (f : ndarray) :
  rows f <> 0%nat -> cols f <> 0%nat ->
  channels f = 3%nat \/ channels f = 4%nat ->
  cvtColor_BGR2HSV bgr2hsv f
  = inr (map (map (fun p => bgr2hsv (nth 0 p 0) (nth 1 p 0) (nth 2 p 0))) f).
Proof.
  intros Hr Hc Hch. unfold cvtColor_BGR2HSV, empty.
  apply Nat.eqb_neq in Hr, Hc. rewrite Hr, Hc. simpl.
  replace ((channels f =? 3)%nat || (channels f =? 4)%nat) with true; [reflexivity|].
  symmetry. apply orb_true_iff. rewrite !Nat.eqb_eq. exact Hch.
Qed.

(** A frame the colour conversion refuses. *)
Lemma cvtColor_refuses (bgr2hsv : Z -> Z -> Z -> Z * Z * Z) (f : ndarray) :
  rows f = 0%nat \/ cols f = 0%nat
  \/ (channels f <> 3%nat /\ channels f <> 4%nat) ->
  exists e, cvtColor_BGR2HSV bgr2hsv f = inl e.
Proof.
  intro Hbad. unfold cvtColor_BGR2HSV, empty.
  destruct ((rows f =? 0)%nat || (cols f =? 0)%nat) eqn:Ee; [eauto|].
  apply orb_false_iff in Ee. destruct Ee as [Er Ec].
  apply Nat.eqb_neq in Er, Ec.
  destruct Hbad as [H|[H|[H3 H4]]]; try contradiction.
  apply Nat.eqb_neq in H3, H4. rewrite H3, H4. simpl. eauto.
Qed.

(** ** The filters compute the dilation and the erosion by the 5 x 5 square *)

Lemma within_5x5_offset (y x y' x' : Z) :
  within_5x5 y x y' x'
  <-> exists d, In d (kernel_offsets (np_ones 5 5))
                /\ y' = y + fst d /\ x' = x + snd d.
Proof.
  unfold within_5x5. split.
  - intros [Hy Hx]. exists (y' - y, x' - x). rewrite kernel_5x5.
    cbn [fst snd]. lia.
  - intros (d & Hd & -> & ->). apply kernel_5x5 in Hd. lia.
Qed.

Lemma fold_max_nonneg (l : list Z) : 0 <= fold_right Z.max 0 l.
Proof. induction l as [|a l IH]; simpl; lia. Qed.

Lemma fold_min_le_255 (l : list Z) : fold_right Z.min 255 l <= 255.
Proof. induction l as [|a l IH]; simpl; lia. Qed.

Lemma fold_min_In (l : list Z) :
  fold_right Z.min 255 l <> 255 -> In (fold_right Z.min 255 l) l.
Proof.
  induction l as [|a l IH]; simpl; [congruence|]. intro Hne.
  destruct (Z.min_spec a (fold_right Z.min 255 l)) as [[_ E]|[_ E]]; rewrite E in *.
  - now left.
  - right. apply IH, Hne.
Qed.

Lemma dilate_dilated_5x5 (m : Mat1) : dilated_5x5 m (dilate m (np_ones 5 5)).
Proof.
  split; [apply same_size_dilate|]. intros y x. rewrite at_dilate.
  destruct (at_ m y x) as [c|]; cbn [option_map]; [|reflexivity].
  eexists. split; [reflexivity|]. split; [apply fold_max_nonneg|]. split.
  - intros y' x' u Hr Hu. apply fold_max_ge, window_iff.
    apply within_5x5_offset in Hr. destruct Hr as (d & Hd & -> & ->).
    exists d. auto.
  - destruct (Z.eq_dec (fold_right Z.max 0
                 (window m (kernel_offsets (np_ones 5 5)) y x)) 0) as [E|E];
      [now left|right].
    apply fold_max_In, window_iff in E. destruct E as (d & Hd & Hv).
    exists (y + fst d), (x + snd d). split; [|exact Hv].
    apply within_5x5_offset. exists d. auto.
Qed.

Lemma erode_eroded_5x5 (m : Mat1) : eroded_5x5 m (erode m (np_ones 5 5)).
Proof.
  split; [apply same_size_erode|]. intros y x. rewrite at_erode.
  destruct (at_ m y x) as [c|]; cbn [option_map]; [|reflexivity].
  eexists. split; [reflexivity|]. split; [apply fold_min_le_255|]. split.
  - intros y' x' u Hr Hu. apply fold_min_le, window_iff.
    apply within_5x5_offset in Hr. destruct Hr as (d & Hd & -> & ->).
    exists d. auto.
  - destruct (Z.eq_dec (fold_right Z.min 255
                 (window m (kernel_offsets (np_ones 5 5)) y x)) 255) as [E|E];
      [now left|right].
    apply fold_min_In, window_iff in E. destruct E as (d & Hd & Hv).
    exists (y + fst d), (x + snd d). split; [|exact Hv].
    apply within_5x5_offset. exists d. auto.
Qed.

(** ** Selection does not depend on the order of the contours, ties apart *)



(** ** The detector *)

Section DetectorProperties.

Variable bgr2hsv : Z -> Z -> Z -> Z * Z * Z.
Variable findContours : Mat1 -> list Contour.
Variable contourArea : Contour -> Q.

Let detect := detect_table bgr2hsv findContours contourArea.
Let result := detect_result bgr2hsv findContours contourArea.

(** The call computes [detect_result] of the detector and the frame and
    hands the world back as it found it. *)
Lemma detect_table_run (w : World) :
  detect w = (result (self w) (frame w), w).
Proof.
  unfold detect, result, detect_table, detect_result, bind, get_frame, get_self, call.
  destruct (cvtColor_BGR2HSV bgr2hsv (frame w)) as [e|hsv]; [reflexivity|].
  unfold cleaned_mask, threshold_mask, select_contour.
  destruct (findContours _) as [|first rest]; [reflexivity|].
  destruct (Qltb _ 1000); reflexivity.
Qed.

Lemma detect_returned (w : World) (oc : option Contour) (mask : Mat1) :
  fst (detect w) = Returned (oc, mask) ->
  exists hsv,
    cvtColor_BGR2HSV bgr2hsv (frame w) = inr hsv
    /\ mask = cleaned_mask (self w) hsv
    /\ oc = select_contour contourArea (findContours mask).
Proof.
  rewrite detect_table_run. unfold result, detect_result. simpl.
  destruct (cvtColor_BGR2HSV bgr2hsv (frame w)) as [e|hsv]; [discriminate|].
  intro H. injection H as <- <-. exists hsv. auto.
Qed.

Lemma select_contour_some (cs : list Contour) (c : Contour) :
  select_contour contourArea cs = Some c ->
  exists first rest,
    cs = first :: rest /\ c = py_max contourArea first rest
    /\ (1000 <= contourArea c)%Q.
Proof.
  destruct cs as [|first rest]; simpl; [discriminate|].
  destruct (Qltb _ 1000) eqn:E; [discriminate|].
  intro H. injection H as <-. apply Qltb_false in E. eauto.
Qed.

Lemma cvtColor_same_size (f : ndarray) (hsv : Mat3) :
  cvtColor_BGR2HSV bgr2hsv f = inr hsv -> same_size f hsv.
Proof.
  unfold cvtColor_BGR2HSV. destruct (empty f); [discriminate|].
  destruct (negb _); [discriminate|].
  intro H. injection H as <-. apply same_size_map.
Qed.

Lemma cleaned_mask_same_size (s : TableDetector) (hsv : Mat3) :
  same_size hsv (cleaned_mask s hsv).
Proof.
  unfold cleaned_mask, threshold_mask.
  eapply same_size_trans; [apply same_size_map|].
  eapply same_size_trans; apply same_size_morphologyEx.
Qed.

Lemma cleaned_mask_binary (s : TableDetector) (hsv : Mat3) :
  binary (cleaned_mask s hsv).
Proof.
  unfold cleaned_mask, threshold_mask.
  do 2 apply binary_morphologyEx. apply binary_inRange.
Qed.

(** C1. Whenever every contour extracted from the cleaned mask (hence the one
    of greatest area) has area below 1000, the call returns no contour with
    the mask; and a contour that is returned is one of the extracted
    contours and has area at least 1000. *)
Theorem detect_min_area (w : World) (oc : option Contour) (mask : Mat1) :
  fst (detect w) = Returned (oc, mask) ->
  ((forall first rest, findContours mask = first :: rest ->
      (contourArea (py_max contourArea first rest) < 1000)%Q -> oc = None)
   /\ ((forall c, In c (findContours mask) -> (contourArea c < 1000)%Q) -> oc = None))
  /\ (forall c, oc = Some c ->
        In c (findContours mask) /\ (1000 <= contourArea c)%Q).
Proof.
  intro Hret. destruct (detect_returned w oc mask Hret) as (hsv & _ & _ & Hoc).
  assert (Hsome : forall c, oc = Some c ->
            In c (findContours mask) /\ (1000 <= contourArea c)%Q).
  { intros c Hc. rewrite Hc in Hoc. symmetry in Hoc.
    apply select_contour_some in Hoc.
    destruct Hoc as (first & rest & Hcs & Hsel & Harea).
    split; [|exact Harea]. rewrite Hcs, Hsel. apply py_max_In. }
  split; [split|exact Hsome].
  - intros first rest Hcs Hsmall. rewrite Hcs in Hoc. simpl in Hoc.
    apply Qltb_true in Hsmall. rewrite Hsmall in Hoc. exact Hoc.
  - intro Hall. destruct oc as [c|]; [|reflexivity].
    destruct (Hsome c eq_refl) as [Hin Hbig].
    exfalso. exact (Qlt_not_le _ _ (Hall c Hin) Hbig).
Qed.

(** C2. When the cleaned mask yields at least one contour, the contour the
    call selects is one of them and no extracted contour has a greater area;
    it is returned unless its area is below 1000. In particular, of two
    contours of different areas, both above 1000, the larger is returned. *)
Theorem detect_selects_largest (w : World) (hsv : Mat3)
    (first : Contour) (rest : list Contour) :
  cvtColor_BGR2HSV bgr2hsv (frame w) = inr hsv ->
  findContours (cleaned_mask (self w) hsv) = first :: rest ->
  let mask := cleaned_mask (self w) hsv in
  let chosen := py_max contourArea first rest in
  In chosen (first :: rest)
  /\ (forall c, In c (first :: rest) -> (contourArea c <= contourArea chosen)%Q)
  /\ fst (detect w) =
       Returned (if Qltb (contourArea chosen) 1000 then None else Some chosen, mask)
  /\ (forall a b, first :: rest = [a; b] ->
        (1000 < contourArea a)%Q -> (1000 < contourArea b)%Q ->
        ~ (contourArea a == contourArea b)%Q ->
        exists larger,
          fst (detect w) = Returned (Some larger, mask)
          /\ (larger = a \/ larger = b)
          /\ (contourArea a <= contourArea larger)%Q
          /\ (contourArea b <= contourArea larger)%Q).
Proof.
  intros Hcvt Hcs mask chosen.
  assert (Hrun : fst (detect w) =
            Returned (if Qltb (contourArea chosen) 1000 then None else Some chosen, mask)).
  { rewrite detect_table_run. unfold result, detect_result, fst.
    rewrite Hcvt. cbv zeta. rewrite Hcs. reflexivity. }
  pose proof (py_max_In contourArea first rest) as Hin.
  pose proof (py_max_ge contourArea first rest) as Hge.
  fold chosen in Hin, Hge.
  repeat split; auto.
  intros a b Hab Ha Hb Hneq. exists chosen.
  assert (Hbig : Qltb (contourArea chosen) 1000 = false).
  { apply Qltb_false. apply Qle_trans with (contourArea a).
    - apply Qlt_le_weak, Ha.
    - apply Hge. rewrite Hab. now left. }
  rewrite Hrun, Hbig. rewrite Hab in Hin, Hge.
  repeat split.
  - destruct Hin as [H|[H|[]]]; auto.
  - apply Hge. now left.
  - apply Hge. right. now left.
Qed.

(** C3. For a detector as constructed, the threshold mask, the one the
    cleanup then works on, holds 255 at a pixel exactly when its
    hue/saturation/value triple lies within (35, 50, 50) and (85, 255, 255),
    bounds included, and 0 exactly when it does not. In particular, given
    that the contour finder reports nothing on a blank mask, a frame with no
    pixel in the range yields no contour and an all-zero mask. *)
Theorem threshold_mask_green_range (f : ndarray) (hsv : Mat3) :
  cvtColor_BGR2HSV bgr2hsv f = inr hsv ->
  let w := {| self := TableDetector_init; frame := f |} in
  let k := np_ones 5 5 in
  let thresholded := threshold_mask TableDetector_init hsv in
  (forall y x p, cell hsv y x = Some p ->
     exists v, cell thresholded y x = Some v
       /\ (v = 255 <-> in_green_range p) /\ (v = 0 <-> ~ in_green_range p))
  /\ (exists oc, fst (detect w) =
        Returned (oc, morphologyEx (morphologyEx thresholded MORPH_CLOSE k) MORPH_OPEN k))
  /\ ((forall m, blank m -> findContours m = []) ->
      (forall y x p, cell hsv y x = Some p -> ~ in_green_range p) ->
      exists mask, fst (detect w) = Returned (None, mask) /\ blank mask).
Proof.
  intros Hcvt w k thresholded.
  assert (Hcell : forall y x p, cell hsv y x = Some p ->
            cell thresholded y x
            = Some (if in_bounds (35, 50, 50) (85, 255, 255) p then 255 else 0)).
  { intros y x p Hp. unfold thresholded, threshold_mask, inRange.
    rewrite cell_map, Hp. reflexivity. }
  assert (Hrun : fst (detect w) =
            Returned (select_contour contourArea
                        (findContours (cleaned_mask TableDetector_init hsv)),
                      cleaned_mask TableDetector_init hsv)).
  { rewrite detect_table_run. unfold result, detect_result, fst, w, self, frame.
    rewrite Hcvt. reflexivity. }
  split; [|split].
  - intros y x p Hp. rewrite (Hcell y x p Hp). eexists. split; [reflexivity|].
    pose proof (in_bounds_green p) as Hg.
    destruct (in_bounds (35, 50, 50) (85, 255, 255) p).
    + assert (Hin : in_green_range p) by (apply Hg; reflexivity).
      split; split; intro; try reflexivity; try assumption;
        try discriminate; contradiction.
    + assert (Hout : ~ in_green_range p) by (intro Hr; apply Hg in Hr; discriminate).
      split; split; intro; try reflexivity; try assumption;
        try discriminate; contradiction.
  - eexists. exact Hrun.
  - intros Hblank Hnone.
    assert (Hb : blank thresholded).
    { unfold blank. apply Forall_forall. intros row Hrow.
      apply Forall_forall. intros v Hv.
      destruct (cell_In _ _ _ Hrow Hv) as (y & x & Hyx).
      pose proof Hyx as Hp.
      unfold thresholded, threshold_mask, inRange in Hp.
      rewrite cell_map in Hp.
      destruct (cell hsv y x) as [p|] eqn:Ep; [clear Hp|discriminate].
      rewrite (Hcell y x p Ep) in Hyx.
      pose proof (in_bounds_green p) as Hg.
      destruct (in_bounds (35, 50, 50) (85, 255, 255) p); [|congruence].
      exfalso. apply (Hnone y x p Ep). apply Hg. reflexivity. }
    apply blank_cleaned in Hb.
    exists (cleaned_mask TableDetector_init hsv). split; [|exact Hb].
    rewrite Hrun. unfold cleaned_mask. fold thresholded.
    rewrite (Hblank _ Hb). reflexivity.
Qed.

(** C4. The cleanup is a closing followed by an opening, in that order,
    both by the 5 x 5 square of ones. Of the four images it goes through,
    the first is the threshold mask dilated (each cell the greatest value
    within two rows and two columns of it), the second that one eroded
    (each cell the least such value), the third the second eroded and the
    last the third dilated. The last one is both the mask returned and the
    image the contours are extracted from. The order matters: there is a
    mask on which opening first and closing second gives another result. *)
Theorem cleanup_close_then_open (w : World) (oc : option Contour) (mask : Mat1) :
  fst (detect w) = Returned (oc, mask) ->
  exists hsv dilated closed eroded,
    cvtColor_BGR2HSV bgr2hsv (frame w) = inr hsv
    /\ let k := np_ones 5 5 in
       let thresholded := inRange hsv (lower_green (self w)) (upper_green (self w)) in
       k = [[1; 1; 1; 1; 1]; [1; 1; 1; 1; 1]; [1; 1; 1; 1; 1];
            [1; 1; 1; 1; 1]; [1; 1; 1; 1; 1]]
       /\ dilated_5x5 thresholded dilated
       /\ eroded_5x5 dilated closed
       /\ eroded_5x5 closed eroded
       /\ dilated_5x5 eroded mask
       /\ closed = morphologyEx thresholded MORPH_CLOSE k
       /\ mask = morphologyEx closed MORPH_OPEN k
       /\ oc = select_contour contourArea (findContours mask)
       /\ exists m,
            morphologyEx (morphologyEx m MORPH_CLOSE k) MORPH_OPEN k
            <> morphologyEx (morphologyEx m MORPH_OPEN k) MORPH_CLOSE k.
Proof.
  intro Hret. destruct (detect_returned w oc mask Hret) as (hsv & Hcvt & Hmask & Hoc).
  set (k := np_ones 5 5).
  set (t := inRange hsv (lower_green (self w)) (upper_green (self w))).
  exists hsv, (dilate t k), (erode (dilate t k) k), (erode (erode (dilate t k) k) k).
  split; [exact Hcvt|]. cbv zeta. fold k t.
  assert (Hm : mask = dilate (erode (erode (dilate t k) k) k) k) by exact Hmask.
  split; [reflexivity|].
  split; [apply dilate_dilated_5x5|].
  split; [apply erode_eroded_5x5|].
  split; [apply erode_eroded_5x5|].
  split; [rewrite Hm; apply dilate_dilated_5x5|].
  split; [reflexivity|].
  split; [exact Hm|].
  split; [exact Hoc|].
  exists Reference.two_bars. exact close_then_open_is_not_open_then_close.
Qed.

(** C5, as amended. A frame with no rows or no columns, or with a channel
    count that is neither 3 nor 4 (a grayscale frame, say), makes the call
    fail with the library's error, which reaches the caller with the world
    untouched; no result is returned. *)
Theorem detect_rejects_malformed (w : World) :
  rows (frame w) = 0%nat \/ cols (frame w) = 0%nat
  \/ (channels (frame w) <> 3%nat /\ channels (frame w) <> 4%nat) ->
  exists e, detect w = (Raised e, w)
            /\ forall r, fst (detect w) <> Returned r.
Proof.
  intro Hbad. rewrite detect_table_run. unfold result, detect_result, cvtColor_BGR2HSV.
  assert (Hcases : empty (frame w) = true
                   \/ (empty (frame w) = false
                       /\ negb ((channels (frame w) =? 3)%nat
                                || (channels (frame w) =? 4)%nat) = true)).
  { unfold empty. destruct Hbad as [H|[H|[H3 H4]]].
    - left. rewrite H. reflexivity.
    - left. rewrite H. apply orb_true_r.
    - destruct ((rows (frame w) =? 0)%nat || (cols (frame w) =? 0)%nat);
        [now left|right]. split; [reflexivity|].
      apply Nat.eqb_neq in H3, H4. rewrite H3, H4. reflexivity. }
  destruct Hcases as [He|[He Hc]].
  - rewrite He. eexists. split; [reflexivity|]. simpl. discriminate.
  - rewrite He, Hc. eexists. split; [reflexivity|]. simpl. discriminate.
Qed.

(** Every other frame is converted and the call returns. *)
Lemma detect_accepts_well_formed (w : World) :
  rows (frame w) <> 0%nat -> cols (frame w) <> 0%nat ->
  channels (frame w) = 3%nat \/ channels (frame w) = 4%nat ->
  exists r, detect w = (Returned r, w).
Proof.
  intros Hr Hc Hch. rewrite detect_table_run.
  unfold result, detect_result, cvtColor_BGR2HSV, empty.
  apply Nat.eqb_neq in Hr, Hc. rewrite Hr, Hc. simpl.
  replace ((channels (frame w) =? 3)%nat || (channels (frame w) =? 4)%nat)
    with true.
  - simpl. eexists. reflexivity.
  - symmetry. apply orb_true_iff. rewrite !Nat.eqb_eq. exact Hch.
Qed.

(** C6. When no contour is found in the cleaned mask, the call returns
    normally, with no contour and with the cleaned mask of the frame: a
    binary mask of the frame's size; nothing is raised and the world is
    untouched. *)
Theorem detect_no_contours (w : World) (hsv : Mat3) :
  cvtColor_BGR2HSV bgr2hsv (frame w) = inr hsv ->
  findContours (cleaned_mask (self w) hsv) = [] ->
  detect w = (Returned (None, cleaned_mask (self w) hsv), w)
  /\ binary (cleaned_mask (self w) hsv)
  /\ same_size (frame w) (cleaned_mask (self w) hsv).
Proof.
  intros Hcvt Hnone. split; [|split].
  - rewrite detect_table_run. unfold result, detect_result.
    rewrite Hcvt. cbv zeta. rewrite Hnone. reflexivity.
  - apply cleaned_mask_binary.
  - eapply same_size_trans;
      [apply cvtColor_same_size, Hcvt | apply cleaned_mask_same_size].
Qed.

(** C7. Whatever the call returns, with or without a contour, the mask has
    as many rows as the frame and row by row as many cells as the frame has
    pixels, each cell being one number, 0 or 255. *)
Theorem detect_mask_shape (w : World) (oc : option Contour) (mask : Mat1) :
  fst (detect w) = Returned (oc, mask) ->
  same_size (frame w) mask
  /\ length mask = rows (frame w)
  /\ binary mask
  /\ (forall y x v, cell mask y x = Some v -> v = 0 \/ v = 255).
Proof.
  intro Hret. destruct (detect_returned w oc mask Hret) as (hsv & Hcvt & -> & _).
  assert (Hsize : same_size (frame w) (cleaned_mask (self w) hsv)).
  { eapply same_size_trans;
      [apply cvtColor_same_size, Hcvt | apply cleaned_mask_same_size]. }
  pose proof (cleaned_mask_binary (self w) hsv) as Hbin.
  repeat split; auto.
  - symmetry. exact (Forall2_length Hsize).
  - intros y x v Hv. unfold cell in Hv.
    destruct (nth_error (cleaned_mask (self w) hsv) y) as [row|] eqn:Ey;
      [|discriminate].
    unfold binary in Hbin. rewrite Forall_forall in Hbin.
    specialize (Hbin row (nth_error_In _ _ Ey)). rewrite Forall_forall in Hbin.
    exact (Hbin v (nth_error_In _ _ Hv)).
Qed.

(** C9. A call leaves the world as it found it: the frame's pixels and the
    detector's two bounds are unchanged; and what it returns or raises is a
    function of the detector and the frame alone. *)
Theorem detect_no_side_effects (w : World) :
  snd (detect w) = w
  /\ frame (snd (detect w)) = frame w
  /\ lower_green (self (snd (detect w))) = lower_green (self w)
  /\ upper_green (self (snd (detect w))) = upper_green (self w)
  /\ fst (detect w) = detect_result bgr2hsv findContours contourArea (self w) (frame w).
Proof.
  rewrite detect_table_run. simpl. repeat split.
Qed.

(** C10. The contour a call returns is the first, in extraction order, of
    those of greatest area: every contour extracted before it is strictly
    smaller, every one after it is no larger. *)
Theorem detect_first_of_ties (w : World) (c : Contour) (mask : Mat1) :
  fst (detect w) = Returned (Some c, mask) ->
  exists before after,
    findContours mask = before ++ c :: after
    /\ (forall x, In x before -> (contourArea x < contourArea c)%Q)
    /\ (forall x, In x after -> (contourArea x <= contourArea c)%Q).
Proof.
  intro Hret. destruct (detect_returned w _ mask Hret) as (hsv & _ & _ & Hoc).
  symmetry in Hoc. apply select_contour_some in Hoc.
  destruct Hoc as (first & rest & Hcs & -> & _).
  rewrite Hcs. apply py_max_split.
Qed.

End DetectorProperties.

Section TwoRuns.

Variable bgr2hsv : Z -> Z -> Z -> Z * Z * Z.
Variable contourArea : Contour -> Q.


End TwoRuns.

(** ** The detector on concrete frames *)

Lemma detect_min_area_witness :
  fst (Reference.detect Reference.table_frame)
  = Returned (Some (Reference.square 3 3 33), Reference.mask_of Reference.table_frame)
  /\ In (Reference.square 3 3 33)
        (Reference.findContours (Reference.mask_of Reference.table_frame))
  /\ (1000 <= Reference.contourArea (Reference.square 3 3 33))%Q.
Proof.
  assert (H : fst (detect_table Reference.bgr2hsv Reference.findContours
                     Reference.contourArea (Reference.world Reference.table_frame))
              = Returned (Some (Reference.square 3 3 33),
                          Reference.mask_of Reference.table_frame))
    by (vm_compute; reflexivity).
  split; [exact H|].
  exact (proj2 (detect_min_area Reference.bgr2hsv Reference.findContours
                  Reference.contourArea (Reference.world Reference.table_frame)
                  _ _ H) _ eq_refl).
Defined.

Lemma detect_selects_largest_witness :
  cvtColor_BGR2HSV Reference.bgr2hsv Reference.speck_frame
  = inr (Reference.cvt Reference.speck_frame)
  /\ Reference.findContours_fixed
       [Reference.square 0 0 40; Reference.square 50 0 60]
       (cleaned_mask TableDetector_init (Reference.cvt Reference.speck_frame))
     = [Reference.square 0 0 40; Reference.square 50 0 60]
  /\ fst (detect_table Reference.bgr2hsv
            (Reference.findContours_fixed
               [Reference.square 0 0 40; Reference.square 50 0 60])
            Reference.contourArea (Reference.world Reference.speck_frame))
     = Returned (Some (Reference.square 50 0 60),
                 Reference.mask_of Reference.speck_frame).
Proof.
  assert (H1 : cvtColor_BGR2HSV Reference.bgr2hsv Reference.speck_frame
               = inr (Reference.cvt Reference.speck_frame))
    by (vm_compute; reflexivity).
  split; [exact H1|]. split; [reflexivity|].
  destruct (detect_selects_largest Reference.bgr2hsv
              (Reference.findContours_fixed
                 [Reference.square 0 0 40; Reference.square 50 0 60])
              Reference.contourArea (Reference.world Reference.speck_frame)
              (Reference.cvt Reference.speck_frame)
              (Reference.square 0 0 40) [Reference.square 50 0 60]
              H1 eq_refl) as (_ & _ & Hrun & _).
  exact Hrun.
Defined.

Lemma threshold_mask_green_range_witness :
  cvtColor_BGR2HSV Reference.bgr2hsv Reference.black_frame
  = inr (Reference.cvt Reference.black_frame)
  /\ (forall m, blank m -> Reference.findContours m = [])
  /\ (forall y x p, cell (Reference.cvt Reference.black_frame) y x = Some p ->
        ~ in_green_range p)
  /\ exists mask,
       fst (Reference.detect Reference.black_frame) = Returned (None, mask)
       /\ blank mask.
Proof.
  assert (H1 : cvtColor_BGR2HSV Reference.bgr2hsv Reference.black_frame
               = inr (Reference.cvt Reference.black_frame))
    by (vm_compute; reflexivity).
  assert (H2 : forall y x p,
             cell (Reference.cvt Reference.black_frame) y x = Some p ->
             ~ in_green_range p)
    by (apply no_green_cells; vm_compute; reflexivity).
  repeat split; try assumption.
  - exact reference_findContours_blank.
  - exact (proj2 (proj2 (threshold_mask_green_range Reference.bgr2hsv
                           Reference.findContours Reference.contourArea
                           Reference.black_frame _ H1))
             reference_findContours_blank H2).
Defined.

Lemma cleanup_close_then_open_witness :
  fst (Reference.detect Reference.speck_frame)
  = Returned (None, Reference.mask_of Reference.speck_frame)
  /\ exists hsv dilated closed eroded,
       cvtColor_BGR2HSV Reference.bgr2hsv Reference.speck_frame = inr hsv
       /\ dilated_5x5 (inRange hsv (35, 50, 50) (85, 255, 255)) dilated
       /\ eroded_5x5 dilated closed
       /\ eroded_5x5 closed eroded
       /\ dilated_5x5 eroded (Reference.mask_of Reference.speck_frame).
Proof.
  assert (H : fst (detect_table Reference.bgr2hsv Reference.findContours
                     Reference.contourArea (Reference.world Reference.speck_frame))
              = Returned (None, Reference.mask_of Reference.speck_frame))
    by (vm_compute; reflexivity).
  split; [exact H|].
  destruct (cleanup_close_then_open Reference.bgr2hsv Reference.findContours
              Reference.contourArea (Reference.world Reference.speck_frame)
              _ _ H)
    as (hsv & dilated & closed & eroded & Hcvt & _ & Hd & Hc & He & Hm & _).
  exists hsv, dilated, closed, eroded.
  split; [exact Hcvt|]. split; [exact Hd|]. split; [exact Hc|].
  split; [exact He | exact Hm].
Defined.

Lemma detect_rejects_malformed_witness :
  (channels Reference.gray_frame <> 3%nat /\ channels Reference.gray_frame <> 4%nat)
  /\ exists e,
       Reference.detect Reference.gray_frame
       = (Raised e, Reference.world Reference.gray_frame)
       /\ forall r, fst (Reference.detect Reference.gray_frame) <> Returned r.
Proof.
  assert (H : channels Reference.gray_frame <> 3%nat
              /\ channels Reference.gray_frame <> 4%nat)
    by (split; vm_compute; discriminate).
  split; [exact H|].
  exact (detect_rejects_malformed Reference.bgr2hsv Reference.findContours
           Reference.contourArea (Reference.world Reference.gray_frame)
           (or_intror (or_intror H))).
Defined.

Lemma detect_no_contours_witness :
  cvtColor_BGR2HSV Reference.bgr2hsv Reference.black_frame
  = inr (Reference.cvt Reference.black_frame)
  /\ Reference.findContours
       (cleaned_mask TableDetector_init (Reference.cvt Reference.black_frame)) = []
  /\ Reference.detect Reference.black_frame
     = (Returned (None, Reference.mask_of Reference.black_frame),
        Reference.world Reference.black_frame)
  /\ binary (Reference.mask_of Reference.black_frame)
  /\ same_size Reference.black_frame (Reference.mask_of Reference.black_frame).
Proof.
  assert (H1 : cvtColor_BGR2HSV Reference.bgr2hsv Reference.black_frame
               = inr (Reference.cvt Reference.black_frame))
    by (vm_compute; reflexivity).
  assert (H2 : Reference.findContours
                 (cleaned_mask TableDetector_init
                    (Reference.cvt Reference.black_frame)) = [])
    by (vm_compute; reflexivity).
  split; [exact H1|]. split; [exact H2|].
  exact (detect_no_contours Reference.bgr2hsv Reference.findContours
           Reference.contourArea (Reference.world Reference.black_frame)
           _ H1 H2).
Defined.

Lemma detect_mask_shape_witness :
  fst (Reference.detect Reference.speck_frame)
  = Returned (None, Reference.mask_of Reference.speck_frame)
  /\ same_size Reference.speck_frame (Reference.mask_of Reference.speck_frame)
  /\ length (Reference.mask_of Reference.speck_frame) = 14%nat
  /\ binary (Reference.mask_of Reference.speck_frame)
  /\ (forall y x v, cell (Reference.mask_of Reference.speck_frame) y x = Some v ->
        v = 0 \/ v = 255).
Proof.
  assert (H : fst (detect_table Reference.bgr2hsv Reference.findContours
                     Reference.contourArea (Reference.world Reference.speck_frame))
              = Returned (None, Reference.mask_of Reference.speck_frame))
    by (vm_compute; reflexivity).
  split; [exact H|].
  exact (detect_mask_shape Reference.bgr2hsv Reference.findContours
           Reference.contourArea (Reference.world Reference.speck_frame) _ _ H).
Defined.


Lemma detect_first_of_ties_witness :
  fst (detect_table Reference.bgr2hsv
         (Reference.findContours_fixed
            [Reference.square 0 0 30; Reference.square 0 50 40;
             Reference.square 50 50 40])
         Reference.contourArea (Reference.world Reference.speck_frame))
  = Returned (Some (Reference.square 0 50 40),
              Reference.mask_of Reference.speck_frame)
  /\ exists before after,
       [Reference.square 0 0 30; Reference.square 0 50 40;
        Reference.square 50 50 40]
       = before ++ Reference.square 0 50 40 :: after
       /\ (forall x, In x before ->
             (Reference.contourArea x
              < Reference.contourArea (Reference.square 0 50 40))%Q)
       /\ (forall x, In x after ->
             (Reference.contourArea x
              <= Reference.contourArea (Reference.square 0 50 40))%Q).
Proof.
  assert (H : fst (detect_table Reference.bgr2hsv
                     (Reference.findContours_fixed
                        [Reference.square 0 0 30; Reference.square 0 50 40;
                         Reference.square 50 50 40])
                     Reference.contourArea
                     (Reference.world Reference.speck_frame))
              = Returned (Some (Reference.square 0 50 40),
                          Reference.mask_of Reference.speck_frame))
    by (vm_compute; reflexivity).
  split; [exact H|].
  exact (detect_first_of_ties Reference.bgr2hsv
           (Reference.findContours_fixed
              [Reference.square 0 0 30; Reference.square 0 50 40;
               Reference.square 50 50 40])
           Reference.contourArea (Reference.world Reference.speck_frame)
           _ _ H).
Defined.

(** C5 as stated fails: a frame of four channels, which is not the three
    the specification requires, is converted (the fourth channel is dropped)
    and the call returns a mask. *)
Lemma detect_accepts_four_channels :
  malformed Reference.bgra_frame
  /\ fst (Reference.detect Reference.bgra_frame) = Returned (None, [[255]])
  /\ ~ (exists e, fst (Reference.detect Reference.bgra_frame) = Raised e).
Proof.
  split; [|split].
  - right. right. vm_compute. discriminate.
  - vm_compute. reflexivity.
  - intros [e He]. vm_compute in He. discriminate He.
Qed.

(** * Further properties of the detector *)

Lemma all_within_cells (lo hi : Z * Z * Z) (hsv : Mat3) :
  all_within lo hi hsv = true ->
  forall y x p, cell hsv y x = Some p -> in_bounds lo hi p = true.
Proof.
  unfold all_within. rewrite forallb_forall. intros Hall y x p Hp.
  unfold cell in Hp. destruct (nth_error hsv y) as [row|] eqn:Ey; [|discriminate].
  specialize (Hall row (nth_error_In _ _ Ey)). rewrite forallb_forall in Hall.
  exact (Hall p (nth_error_In _ _ Hp)).
Qed.

Lemma firstn3_channels (p : list Z) (i : nat) :
  (i < 3)%nat -> nth i (firstn 3 p) 0 = nth i p 0.
Proof.
  intro Hi. rewrite nth_firstn.
  destruct (i <? 3)%nat eqn:E; [reflexivity|]. apply Nat.ltb_ge in E. lia.
Qed.

Section DetectorMask.

Variable bgr2hsv : Z -> Z -> Z -> Z * Z * Z.
Variable findContours : Mat1 -> list Contour.
Variable contourArea : Contour -> Q.

Let detect := detect_table bgr2hsv findContours contourArea.

(** X1. A contour of area at least 1000 among those extracted from the
    returned mask is never passed over in silence: the call then returns a
    contour, one at least as large. *)
Theorem detect_finds_large_contour (w : World) (oc : option Contour)
    (mask : Mat1) (c : Contour) :
  fst (detect w) = Returned (oc, mask) ->
  In c (findContours mask) ->
  (1000 <= contourArea c)%Q ->
  exists found, oc = Some found /\ (contourArea c <= contourArea found)%Q.
Proof.
  intros Hret Hin Hbig.
  destruct (detect_returned _ _ _ w oc mask Hret) as (hsv & _ & _ & ->).
  destruct (findContours mask) as [|first rest]; [contradiction|].
  pose proof (py_max_ge contourArea first rest c Hin) as Hge.
  simpl. destruct (Qltb _ 1000) eqn:E.
  - apply Qltb_true in E. exfalso.
    apply (Qlt_not_le _ _ E). eapply Qle_trans; eassumption.
  - eexists. split; [reflexivity | exact Hge].
Qed.

(** X2. The cleanup never marks a cell far from the target colour: a
    nonzero cell of the returned mask has, at most two rows and two columns
    away, a pixel whose converted triple lies within the detector's
    bounds. *)
Theorem detect_mask_near_target (w : World) (oc : option Contour)
    (mask : Mat1) (y x : nat) (v : Z) :
  fst (detect w) = Returned (oc, mask) ->
  cell mask y x = Some v -> v <> 0 ->
  exists hsv y' x' p,
    cvtColor_BGR2HSV bgr2hsv (frame w) = inr hsv
    /\ cell hsv y' x' = Some p
    /\ in_bounds (lower_green (self w)) (upper_green (self w)) p = true
    /\ Z.abs (Z.of_nat y' - Z.of_nat y) <= 2
    /\ Z.abs (Z.of_nat x' - Z.of_nat x) <= 2.
Proof.
  intros Hret Hv Hne.
  destruct (detect_returned _ _ _ w oc mask Hret) as (hsv & Hcvt & -> & _).
  exists hsv. unfold cleaned_mask, threshold_mask, morphologyEx in Hv.
  set (T := inRange hsv (lower_green (self w)) (upper_green (self w))) in *.
  assert (HT : binary T) by apply binary_inRange.
  assert (HC : binary (erode (dilate T (np_ones 5 5)) (np_ones 5 5)))
    by auto using binary_erode, binary_dilate.
  rewrite <- at_cell in Hv.
  destruct (opening_le _ _ _ _ HC Hv) as (u & Hu & Hvu).
  assert (Hv255 : v = 255).
  { assert (Hb : binary (dilate (erode (erode (dilate T (np_ones 5 5)) (np_ones 5 5))
                                   (np_ones 5 5)) (np_ones 5 5)))
      by auto using binary_erode, binary_dilate.
    destruct (binary_at _ _ _ _ Hb Hv); [contradiction|assumption]. }
  destruct (erode_le _ _ _ _ Hu) as (u' & Hu' & Huu').
  destruct (dilate_near _ _ _ _ Hu') as (d & Hd & Ht); [lia|].
  apply kernel_5x5 in Hd.
  destruct (at_inside _ _ _ _ Ht) as (Hy & Hx & Hcell).
  unfold T in Hcell. rewrite cell_inRange in Hcell.
  destruct (cell hsv (Z.to_nat (Z.of_nat y + fst d)) (Z.to_nat (Z.of_nat x + snd d)))
    as [p|] eqn:Ep; [|discriminate].
  exists (Z.to_nat (Z.of_nat y + fst d)), (Z.to_nat (Z.of_nat x + snd d)), p.
  repeat split; try assumption.
  - cbn [option_map] in Hcell. apply some_eq in Hcell.
    destruct (in_bounds _ _ p); [reflexivity|lia].
  - rewrite Z2Nat.id by assumption. lia.
  - rewrite Z2Nat.id by assumption. lia.
Qed.

(** X3. The cleanup never erases a cell from the inside of a target
    region: when every pixel of the frame at most two rows and two columns
    away from a pixel, itself included, has its converted triple within the
    detector's bounds, the returned mask is 255 at that pixel. *)
Theorem detect_mask_keeps_target_block (w : World) (hsv : Mat3)
    (y x : nat) (p0 : Z * Z * Z) :
  cvtColor_BGR2HSV bgr2hsv (frame w) = inr hsv ->
  cell hsv y x = Some p0 ->
  (forall y' x' p,
     Z.abs (Z.of_nat y' - Z.of_nat y) <= 2 ->
     Z.abs (Z.of_nat x' - Z.of_nat x) <= 2 ->
     cell hsv y' x' = Some p ->
     in_bounds (lower_green (self w)) (upper_green (self w)) p = true) ->
  exists oc mask,
    fst (detect w) = Returned (oc, mask) /\ cell mask y x = Some 255.
Proof.
  intros Hcvt Hp0 Hblock.
  exists (select_contour contourArea (findContours (cleaned_mask (self w) hsv))),
         (cleaned_mask (self w) hsv).
  split.
  { unfold detect. rewrite detect_table_run. unfold detect_result, fst.
    rewrite Hcvt. reflexivity. }
  unfold cleaned_mask, threshold_mask, morphologyEx.
  set (T := inRange hsv (lower_green (self w)) (upper_green (self w))).
  assert (HT : binary T) by apply binary_inRange.
  assert (Hnear : forall d t, In d (kernel_offsets (np_ones 5 5)) ->
            at_ T (Z.of_nat y + fst d) (Z.of_nat x + snd d) = Some t -> t = 255).
  { intros d t Hd Ht. apply kernel_5x5 in Hd.
    destruct (at_inside _ _ _ _ Ht) as (Hy & Hx & Hcell).
    unfold T in Hcell. rewrite cell_inRange in Hcell.
    destruct (cell hsv (Z.to_nat (Z.of_nat y + fst d)) (Z.to_nat (Z.of_nat x + snd d)))
      as [p|] eqn:Ep; [|discriminate].
    cbn [option_map] in Hcell. apply some_eq in Hcell.
    assert (Hin : in_bounds (lower_green (self w)) (upper_green (self w)) p = true).
    { refine (Hblock _ _ p _ _ Ep); rewrite Z2Nat.id by assumption; lia. }
    rewrite Hin in Hcell. congruence. }
  assert (Hcentre : at_ T (Z.of_nat y) (Z.of_nat x) = Some 255).
  { rewrite at_cell. unfold T. rewrite cell_inRange, Hp0. cbn [option_map].
    assert (Hin : in_bounds (lower_green (self w)) (upper_green (self w)) p0 = true).
    { refine (Hblock y x p0 _ _ Hp0); lia. }
    rewrite Hin. reflexivity. }
  destruct (closing_ge T _ _ _ HT Hcentre) as (c & Hc & Hc255).
  destruct (erode_ge _ _ _ c 255 Hc) as (e & He & He255); [lia| |].
  { intros d v Hd Hv.
    destruct (at_erode_some _ _ _ _ Hv) as (u1 & Hu1).
    destruct (at_dilate_some _ _ _ _ Hu1) as (t & Ht).
    pose proof (Hnear d t Hd Ht) as ->.
    destruct (closing_ge T _ _ _ HT Ht) as (v' & Hv' & Hle).
    rewrite Hv in Hv'. apply some_eq in Hv'. subst v'. exact Hle. }
  destruct (dilate_ge _ _ _ _ He) as (m & Hm & Hem).
  rewrite <- at_cell, Hm. f_equal.
  assert (Hb : binary (dilate (erode (erode (dilate T (np_ones 5 5)) (np_ones 5 5))
                                 (np_ones 5 5)) (np_ones 5 5)))
    by auto using binary_erode, binary_dilate.
  destruct (binary_at _ _ _ _ Hb Hm); lia.
Qed.

(** X4. A fourth channel is ignored: on a frame of four channels the call
    gives what it gives on the frame cut down to its first three
    channels. *)
Theorem detect_ignores_alpha (s : TableDetector) (f : ndarray) :
  channels f = 4%nat ->
  fst (detect {| self := s; frame := f |})
  = fst (detect {| self := s; frame := drop_alpha f |}).
Proof.
  intro H4. unfold detect. rewrite !detect_table_run. unfold fst, self, frame.
  unfold detect_result.
  assert (Hcvt : cvtColor_BGR2HSV bgr2hsv (drop_alpha f) = cvtColor_BGR2HSV bgr2hsv f).
  { unfold cvtColor_BGR2HSV.
    assert (He : empty (drop_alpha f) = empty f).
    { unfold empty, rows, cols, drop_alpha. rewrite length_map.
      destruct f as [|r f']; simpl; [reflexivity|]. now rewrite length_map. }
    assert (Hc : channels (drop_alpha f) = 3%nat).
    { unfold channels, drop_alpha in *.
      destruct f as [|[|p r] f']; cbn [map hd] in *; try discriminate H4.
      rewrite length_firstn, H4. reflexivity. }
    rewrite He, Hc, H4. simpl. destruct (empty f); [reflexivity|]. f_equal.
    unfold drop_alpha. rewrite map_map. apply map_ext. intro row.
    rewrite map_map. apply map_ext. intro p.
    rewrite !firstn3_channels by lia. reflexivity. }
  rewrite Hcvt. reflexivity.
Qed.

End DetectorMask.

Lemma detect_finds_large_contour_witness :
  fst (Reference.detect Reference.table_frame)
  = Returned (Some (Reference.square 3 3 33), Reference.mask_of Reference.table_frame)
  /\ In (Reference.square 3 3 33)
        (Reference.findContours (Reference.mask_of Reference.table_frame))
  /\ (1000 <= Reference.contourArea (Reference.square 3 3 33))%Q
  /\ exists found,
       Some (Reference.square 3 3 33) = Some found
       /\ (Reference.contourArea (Reference.square 3 3 33)
           <= Reference.contourArea found)%Q.
Proof.
  assert (H : fst (detect_table Reference.bgr2hsv Reference.findContours
                     Reference.contourArea (Reference.world Reference.table_frame))
              = Returned (Some (Reference.square 3 3 33),
                          Reference.mask_of Reference.table_frame))
    by (vm_compute; reflexivity).
  assert (Hin : In (Reference.square 3 3 33)
                  (Reference.findContours (Reference.mask_of Reference.table_frame)))
    by (vm_compute; left; reflexivity).
  assert (Hbig : (1000 <= Reference.contourArea (Reference.square 3 3 33))%Q)
    by (vm_compute; discriminate).
  split; [exact H|]. split; [exact Hin|]. split; [exact Hbig|].
  exact (detect_finds_large_contour Reference.bgr2hsv Reference.findContours
           Reference.contourArea (Reference.world Reference.table_frame)
           _ _ _ H Hin Hbig).
Defined.

Lemma detect_mask_near_target_witness :
  fst (Reference.detect Reference.speck_frame)
  = Returned (None, Reference.mask_of Reference.speck_frame)
  /\ cell (Reference.mask_of Reference.speck_frame) 3 3 = Some 255
  /\ exists hsv y' x' p,
       cvtColor_BGR2HSV Reference.bgr2hsv Reference.speck_frame = inr hsv
       /\ cell hsv y' x' = Some p
       /\ in_bounds (35, 50, 50) (85, 255, 255) p = true
       /\ Z.abs (Z.of_nat y' - 3) <= 2
       /\ Z.abs (Z.of_nat x' - 3) <= 2.
Proof.
  assert (H : fst (detect_table Reference.bgr2hsv Reference.findContours
                     Reference.contourArea (Reference.world Reference.speck_frame))
              = Returned (None, Reference.mask_of Reference.speck_frame))
    by (vm_compute; reflexivity).
  assert (Hc : cell (Reference.mask_of Reference.speck_frame) 3 3 = Some 255)
    by (vm_compute; reflexivity).
  split; [exact H|]. split; [exact Hc|].
  exact (detect_mask_near_target Reference.bgr2hsv Reference.findContours
           Reference.contourArea (Reference.world Reference.speck_frame)
           _ _ 3%nat 3%nat 255 H Hc ltac:(discriminate)).
Defined.

Lemma detect_mask_keeps_target_block_witness :
  cvtColor_BGR2HSV Reference.bgr2hsv Paint.green_frame
  = inr (Reference.cvt Paint.green_frame)
  /\ cell (Reference.cvt Paint.green_frame) 0 0 = Some (60, 193, 139)
  /\ exists oc mask,
       fst (Reference.detect Paint.green_frame) = Returned (oc, mask)
       /\ cell mask 0 0 = Some 255.
Proof.
  assert (H1 : cvtColor_BGR2HSV Reference.bgr2hsv Paint.green_frame
               = inr (Reference.cvt Paint.green_frame))
    by (vm_compute; reflexivity).
  assert (H2 : cell (Reference.cvt Paint.green_frame) 0 0 = Some (60, 193, 139))
    by (vm_compute; reflexivity).
  split; [exact H1|]. split; [exact H2|].
  refine (detect_mask_keeps_target_block Reference.bgr2hsv Reference.findContours
            Reference.contourArea (Reference.world Paint.green_frame)
            (Reference.cvt Paint.green_frame) 0%nat 0%nat _ H1 H2 _).
  intros y' x' p _ _ Hp.
  refine (all_within_cells (35, 50, 50) (85, 255, 255)
            (Reference.cvt Paint.green_frame) _ y' x' p Hp).
  vm_compute. reflexivity.
Defined.

Lemma detect_ignores_alpha_witness :
  channels Paint.bgra_table = 4%nat
  /\ fst (detect_table Reference.bgr2hsv Reference.findContours
            Reference.contourArea
            {| self := TableDetector_init; frame := Paint.bgra_table |})
     = fst (detect_table Reference.bgr2hsv Reference.findContours
              Reference.contourArea
              {| self := TableDetector_init; frame := drop_alpha Paint.bgra_table |}).
Proof.
  assert (H : channels Paint.bgra_table = 4%nat) by (vm_compute; reflexivity).
  split; [exact H|].
  exact (detect_ignores_alpha Reference.bgr2hsv Reference.findContours
           Reference.contourArea TableDetector_init Paint.bgra_table H).
Defined.

(** * main.py *)

Lemma land_low_byte (key : Z) : Z.land key 255 = key mod 256.
Proof. change 255 with (Z.ones 8). rewrite Z.land_ones by lia. reflexivity. Qed.

Section MainProperties.

Variable bgr2hsv : Z -> Z -> Z -> Z * Z * Z.
Variable findContours : Mat1 -> list Contour.
Variable contourArea : Contour -> Q.
Variable drawContours : ndarray -> list Contour -> ndarray.
Variable approx_corners : Contour -> list Point.
Variable circle : ndarray -> Point -> ndarray.

Let detect := detect_table bgr2hsv findContours contourArea.
Let process_frame :=
  Main.process_frame bgr2hsv findContours contourArea
    drawContours approx_corners circle.
Let capture_loop :=
  Main.capture_loop bgr2hsv findContours contourArea
    drawContours approx_corners circle.
Let main :=
  Main.main bgr2hsv findContours contourArea drawContours approx_corners circle.

(** The frame and the lines printed once the overlay is drawn. *)
Let drawn (f : ndarray) (oc : option Contour) : ndarray :=
  match oc with
  | Some c => fold_left circle (approx_corners c) (drawContours f [c])
  | None => f
  end.

Let report (oc : option Contour) : list String.string :=
  match oc with
  | Some c =>
      ["Table detected!"%string;
       String.append "Corners detected: " (Main.str (length (approx_corners c)))]
  | None => ["No table detected."%string]
  end.

(** One frame whose detection returns: everything the call does. *)
Lemma process_frame_returned (w : World) (wait : Z) (s : Main.Session)
    (oc : option Contour) (mask : Mat1) :
  fst (detect w) = Returned (oc, mask) ->
  exists s',
    process_frame w wait s
    = (match Main.next_key s with
       | Some key => Main.Done (negb ((0 <? wait) && (Z.land key 255 =? 113)))
       | None => Main.Failed Main.WaitKeyFailed
       end,
       {| self := self w; frame := drawn (frame w) oc |}, s')
    /\ Main.stdout s' = Main.stdout s ++ report oc
    /\ Main.windows s'
       = Main.windows s
         ++ (if Main.display s
             then [("AR 8-Ball"%string, Main.Colour (drawn (frame w) oc));
                   ("Table Mask"%string, Main.Gray mask)]
             else [])
    /\ Main.keys s' = tl (Main.keys s)
    /\ Main.display s' = Main.display s
    /\ Main.released s' = Main.released s
    /\ Main.destroyed s' = Main.destroyed s.
Proof.
  unfold detect, process_frame, Main.process_frame. rewrite detect_table_run.
  cbn [fst]. intros ->.
  destruct w as [d f]. destruct s as [out disp wins ks rel des].
  destruct oc as [c|]; destruct disp; destruct (0 <? wait);
    destruct ks as [|[key|] ks];
    cbv [Main.next_key Main.waitKey Main.imshow Main.print drawn report
         Main.display Main.stdout Main.windows Main.keys Main.released
         Main.destroyed self frame tl andb negb];
    try change (Z.land (-1) 255 =? 113) with false; cbv iota;
    try destruct (Z.land key 255 =? 113);
    eexists; (split; [reflexivity|]);
    rewrite <- ?app_assoc, ?app_nil_r; repeat split; reflexivity.
Qed.

(** One frame whose detection raises: the call raises the same, having
    printed, shown and awaited nothing. *)
Lemma process_frame_raised (w : World) (wait : Z) (s : Main.Session)
    (e : cv2.error) :
  fst (detect w) = Raised e ->
  process_frame w wait s = (Main.Failed (Main.DetectionFailed e), w, s).
Proof.
  unfold detect, process_frame, Main.process_frame. rewrite detect_table_run.
  cbn [fst]. intros ->. reflexivity.
Qed.

Lemma detect_convertible (w : World) :
  convertible (frame w) -> exists oc mask, fst (detect w) = Returned (oc, mask).
Proof.
  intros (Hr & Hc & Hch). unfold detect. rewrite detect_table_run.
  unfold detect_result, fst.
  rewrite (cvtColor_accepts bgr2hsv _ Hr Hc Hch). eauto.
Qed.

Lemma select_contour_none (cs : list Contour) :
  select_contour contourArea cs = None ->
  forall c, In c cs -> (contourArea c < 1000)%Q.
Proof.
  destruct cs as [|first rest]; [intros _ c []|]. simpl.
  destruct (Qltb _ 1000) eqn:E; [|discriminate]. intros _ c Hc.
  apply Qltb_true in E. eapply Qle_lt_trans; [|exact E].
  apply py_max_ge, Hc.
Qed.

Lemma detect_cases (w : World) :
  (exists oc mask, fst (detect w) = Returned (oc, mask))
  \/ (exists e, fst (detect w) = Raised e).
Proof.
  destruct (fst (detect w)) as [[oc mask]|e]; [left|right]; eauto.
Qed.

(** X5. In the capture loop's call ([wait] above 0) the frame ends the
    loop exactly when the low byte of the key code is that of q, so also
    for a code with modifier bits set, and not when no key came (-1); the
    single-image call ([wait] 0) never asks to stop. One key is taken per
    frame. *)
Theorem process_frame_quit_key (w : World) (wait : Z) (s : Main.Session)
    (b : bool) (w' : World) (s' : Main.Session) :
  process_frame w wait s = (Main.Done b, w', s') ->
  exists key,
    Main.next_key s = Some key
    /\ (b = false <-> 0 < wait /\ is_quit key)
    /\ Main.keys s' = tl (Main.keys s).
Proof.
  intro Hrun. destruct (detect_cases w) as [(oc & mask & E)|(e & E)].
  - destruct (process_frame_returned w wait s oc mask E)
      as (s0 & Hs0 & _ & _ & Hkeys & _).
    rewrite Hs0 in Hrun.
    destruct (Main.next_key s) as [key|]; [|discriminate].
    exists key. split; [reflexivity|].
    assert (Hb : negb ((0 <? wait) && (Z.land key 255 =? 113)) = b) by congruence.
    assert (Hs : s0 = s') by congruence. subst s0. split; [|exact Hkeys].
    rewrite <- Hb, negb_false_iff, andb_true_iff, Z.ltb_lt, Z.eqb_eq, land_low_byte.
    unfold is_quit. tauto.
  - rewrite (process_frame_raised w wait s e E) in Hrun. discriminate.
Qed.

(** X6. A frame the colour conversion refuses (no rows, no columns, or a
    channel count other than 3 and 4) makes [process_frame] fail with the
    detector's error before it prints, draws, shows or awaits anything. *)
Theorem process_frame_rejects_frame (w : World) (wait : Z) (s : Main.Session) :
  rows (frame w) = 0%nat \/ cols (frame w) = 0%nat
  \/ (channels (frame w) <> 3%nat /\ channels (frame w) <> 4%nat) ->
  exists e,
    process_frame w wait s = (Main.Failed (Main.DetectionFailed e), w, s).
Proof.
  intro Hbad. destruct (cvtColor_refuses bgr2hsv (frame w) Hbad) as [e He].
  exists e. apply process_frame_raised.
  unfold detect. rewrite detect_table_run. unfold detect_result, fst.
  rewrite He. reflexivity.
Qed.

(** X7. A window system that fails changes nothing but the windows: with
    [cv2.imshow] raising, [process_frame] gives the same answer, leaves the
    same frame and detector, prints the same lines and takes the same key
    as with it working, and no window is recorded. *)
Theorem process_frame_headless (w : World) (wait : Z) (s : Main.Session) :
  let off := process_frame w wait (set_display false s) in
  let on := process_frame w wait (set_display true s) in
  fst (fst off) = fst (fst on)
  /\ snd (fst off) = snd (fst on)
  /\ Main.stdout (snd off) = Main.stdout (snd on)
  /\ Main.keys (snd off) = Main.keys (snd on)
  /\ Main.windows (snd off) = Main.windows s.
Proof.
  cbv zeta. destruct (detect_cases w) as [(oc & mask & E)|(e & E)].
  - destruct (process_frame_returned w wait (set_display false s) oc mask E)
      as (s0 & H0 & Hout0 & Hwin0 & Hkeys0 & _).
    destruct (process_frame_returned w wait (set_display true s) oc mask E)
      as (s1 & H1 & Hout1 & _ & Hkeys1 & _).
    rewrite H0, H1. cbn [fst snd].
    rewrite Hout0, Hout1, Hkeys0, Hkeys1, Hwin0.
    unfold set_display, Main.next_key.
    cbn [Main.stdout Main.keys Main.windows Main.display].
    rewrite app_nil_r. repeat split; reflexivity.
  - rewrite !(process_frame_raised w wait _ e E). cbn [fst snd].
    repeat split; reflexivity.
Qed.

(** X8. What [process_frame] reports is what the detector found: "No table
    detected." is the one line printed, and the frame is left as it was,
    only if every contour of the mask has area below 1000; otherwise the
    two lines of a detection are printed and the overlay is drawn for a
    contour of the mask of area at least 1000. The detector is never
    changed. *)
Theorem process_frame_reports_table (w : World) (wait : Z) (s : Main.Session)
    (oc : option Contour) (mask : Mat1) :
  fst (detect w) = Returned (oc, mask) ->
  let w' := snd (fst (process_frame w wait s)) in
  let s' := snd (process_frame w wait s) in
  self w' = self w
  /\ match oc with
     | None =>
         frame w' = frame w
         /\ Main.stdout s' = Main.stdout s ++ ["No table detected."%string]
         /\ forall c, In c (findContours mask) -> (contourArea c < 1000)%Q
     | Some c =>
         frame w' = fold_left circle (approx_corners c) (drawContours (frame w) [c])
         /\ Main.stdout s'
            = Main.stdout s
              ++ ["Table detected!"%string;
                  String.append "Corners detected: "
                    (Main.str (length (approx_corners c)))]
         /\ In c (findContours mask)
         /\ (1000 <= contourArea c)%Q
     end.
Proof.
  intro E. cbv zeta.
  destruct (process_frame_returned w wait s oc mask E) as (s0 & H0 & Hout & _).
  rewrite H0. cbn [fst snd self frame]. split; [reflexivity|].
  destruct (detect_returned _ _ _ w oc mask E) as (hsv & _ & _ & Hoc).
  destruct oc as [c|]; cbn [drawn report] in *.
  - symmetry in Hoc. apply select_contour_some in Hoc.
    destruct Hoc as (first & rest & Hcs & Hc & Hbig).
    repeat split; try assumption; try reflexivity.
    rewrite Hcs, Hc. apply py_max_In.
  - repeat split; try assumption; try reflexivity.
    apply select_contour_none. symmetry. exact Hoc.
Qed.

(** One turn of the capture loop on a frame the detector takes. *)
Lemma capture_loop_step (d : TableDetector) (f : ndarray) (s : Main.Session)
    (key : Z) :
  convertible f -> Main.next_key s = Some key ->
  exists s1,
    (forall rest,
       capture_loop d (f :: rest) s
       = if key mod 256 =? 113 then (Main.Done tt, s1) else capture_loop d rest s1)
    /\ Main.keys s1 = tl (Main.keys s)
    /\ Main.released s1 = Main.released s
    /\ Main.destroyed s1 = Main.destroyed s
    /\ exists out, Main.stdout s1 = Main.stdout s ++ out.
Proof.
  intros Hf Hkey.
  destruct (detect_convertible {| self := d; frame := f |} Hf) as (oc & mask & E).
  destruct (process_frame_returned _ 1 s oc mask E)
    as (s1 & Hrun & Hout & _ & Hkeys & _ & Hrel & Hdes).
  rewrite Hkey in Hrun. exists s1. repeat split; try assumption; [|eauto].
  intro rest. unfold capture_loop. cbn [Main.capture_loop].
  unfold process_frame in Hrun. rewrite Hrun. rewrite land_low_byte.
  change (0 <? 1) with true. cbn [andb negb self].
  destruct (key mod 256 =? 113); reflexivity.
Qed.

Lemma skipn_S_tl {A : Type} (n : nat) (l : list A) :
  skipn (S n) l = skipn n (tl l).
Proof. destruct l; simpl; [now rewrite skipn_nil | reflexivity]. Qed.

(** X9. The capture loop ends at the first frame whose key is q: with the
    frames up to it convertible and the keys before it other than q, the
    loop ends normally there, has taken exactly one key per frame it
    processed, and never looks at the frames that follow. *)
Theorem capture_loop_stops_at_quit (d : TableDetector)
    (before : list ndarray) (f : ndarray) (after : list ndarray)
    (quiet : list Z) (q : Z) (later : list (option Z)) (s : Main.Session) :
  Forall convertible before -> convertible f ->
  length quiet = length before ->
  Forall (fun k => ~ is_quit k) quiet -> is_quit q ->
  Main.keys s = map Some quiet ++ Some q :: later ->
  exists s',
    capture_loop d (before ++ f :: after) s = (Main.Done tt, s')
    /\ Main.keys s' = later
    /\ forall after',
         capture_loop d (before ++ f :: after') s = (Main.Done tt, s').
Proof.
  intros Hbefore Hf. revert quiet s.
  induction Hbefore as [|f0 before Hf0 _ IH]; intros quiet s Hlen Hquiet Hq Hkeys.
  - destruct quiet; [|discriminate]. cbn [map app] in *.
    destruct (capture_loop_step d f s q Hf) as (s1 & Hstep & Hk & _).
    { unfold Main.next_key. rewrite Hkeys. reflexivity. }
    unfold is_quit in Hq. apply Z.eqb_eq in Hq.
    exists s1. rewrite Hkeys in Hk. cbn [tl] in Hk.
    repeat split; [| exact Hk |]; [|intro after']; rewrite Hstep, Hq; reflexivity.
  - destruct quiet as [|k0 quiet]; [discriminate|]. cbn [map app] in Hkeys.
    inversion Hquiet as [|? ? Hk0 Hquiet']; subst.
    destruct (capture_loop_step d f0 s k0 Hf0) as (s1 & Hstep & Hk & _).
    { unfold Main.next_key. rewrite Hkeys. reflexivity. }
    assert (Hne : (k0 mod 256 =? 113) = false)
      by (apply Z.eqb_neq; exact Hk0).
    rewrite Hkeys in Hk. cbn [tl] in Hk.
    destruct (IH quiet s1) as (s' & Hrun & Hlater & Hany); auto.
    exists s'. cbn [app]. repeat split; [| exact Hlater |];
      [|intro after']; rewrite Hstep, Hne; auto.
Qed.

(** X10. When q is never pressed and no call of [cv2.waitKey] raises, the
    loop goes through every frame the camera delivers, taking one key per
    frame, and ends with the line "Failed to grab frame". *)
Theorem capture_loop_reads_all (d : TableDetector) (frames : list ndarray)
    (s : Main.Session) :
  Forall convertible frames ->
  Forall (fun k => exists key, k = Some key /\ ~ is_quit key) (Main.keys s) ->
  exists s',
    capture_loop d frames s = (Main.Done tt, s')
    /\ Main.keys s' = skipn (length frames) (Main.keys s)
    /\ exists out,
         Main.stdout s' = Main.stdout s ++ out ++ ["Failed to grab frame"%string].
Proof.
  intro Hframes. revert s.
  induction Hframes as [|f frames Hf _ IH]; intros s Hkeys.
  - eexists. split; [reflexivity|]. split; [reflexivity|]. exists []. reflexivity.
  - assert (Hnext : exists key, Main.next_key s = Some key /\ ~ is_quit key).
    { unfold Main.next_key. destruct (Main.keys s) as [|k ks].
      - exists (-1). split; [reflexivity|]. unfold is_quit. discriminate.
      - inversion Hkeys as [|? ? (key & -> & Hk) _]. eauto. }
    destruct Hnext as (key & Hnext & Hk).
    destruct (capture_loop_step d f s key Hf Hnext)
      as (s1 & Hstep & Hks & _ & _ & out1 & Hout1).
    assert (Hne : (key mod 256 =? 113) = false) by (apply Z.eqb_neq; exact Hk).
    destruct (IH s1) as (s' & Hrun & Hkeys' & out & Hout).
    { rewrite Hks. destruct (Main.keys s); [constructor|].
      inversion Hkeys; assumption. }
    exists s'. rewrite Hstep, Hne. split; [exact Hrun|]. split.
    + rewrite Hkeys', Hks. cbn [length]. symmetry. apply skipn_S_tl.
    + exists (out1 ++ out). rewrite Hout, Hout1, <- !app_assoc. reflexivity.
Qed.

(** The loop on convertible frames fails only if [cv2.waitKey] does. *)
Lemma capture_loop_done (d : TableDetector) (frames : list ndarray)
    (s : Main.Session) :
  Forall convertible frames ->
  Forall (fun k => k <> None) (Main.keys s) ->
  exists s',
    capture_loop d frames s = (Main.Done tt, s')
    /\ Main.released s' = Main.released s
    /\ Main.destroyed s' = Main.destroyed s.
Proof.
  intro Hframes. revert s.
  induction Hframes as [|f frames Hf _ IH]; intros s Hkeys.
  - eexists. repeat split; reflexivity.
  - assert (Hnext : exists key, Main.next_key s = Some key).
    { unfold Main.next_key. destruct (Main.keys s) as [|[key|] ks]; eauto.
      inversion Hkeys; congruence. }
    destruct Hnext as (key & Hnext).
    destruct (capture_loop_step d f s key Hf Hnext)
      as (s1 & Hstep & Hks & Hrel & Hdes & _).
    rewrite Hstep. destruct (key mod 256 =? 113); [eauto|].
    destruct (IH s1) as (s' & Hrun & Hrel' & Hdes').
    { rewrite Hks. destruct (Main.keys s); [constructor|].
      inversion Hkeys; assumption. }
    exists s'. rewrite Hrun. repeat split; congruence.
Qed.

(** X11. In camera mode (no image argument, or an empty one) with a camera
    that opens, frames the detector takes and a [cv2.waitKey] that does not
    raise, [main] ends normally, however the loop ends, with the capture
    released and the windows destroyed. *)
Theorem main_camera_cleans_up (image : option String.string)
    (imread : String.string -> option ndarray) (frames : list ndarray)
    (s : Main.Session) :
  image = None \/ image = Some ""%string ->
  Forall convertible frames ->
  Forall (fun k => k <> None) (Main.keys s) ->
  exists s',
    main image imread (Some frames) s = (Main.Done tt, s')
    /\ Main.released s' = true
    /\ Main.destroyed s' = true.
Proof.
  intros Himage Hframes Hkeys.
  destruct (capture_loop_done TableDetector_init frames s Hframes Hkeys)
    as (s1 & Hrun & _).
  unfold capture_loop in Hrun.
  exists (Main.destroyAllWindows (Main.release s1)).
  split; [|split; reflexivity].
  unfold main, Main.main. destruct Himage as [-> | ->]; rewrite Hrun; reflexivity.
Qed.

(** X12. Nothing is cleaned up on an error: when the first frame of the
    camera is one the colour conversion refuses, [main] fails with the
    detector's error, and neither [cap.release()] nor
    [cv2.destroyAllWindows()] has been called. *)
Theorem main_error_skips_cleanup (imread : String.string -> option ndarray)
    (f : ndarray) (frames : list ndarray) (s : Main.Session) :
  rows f = 0%nat \/ cols f = 0%nat
  \/ (channels f <> 3%nat /\ channels f <> 4%nat) ->
  exists e,
    main None imread (Some (f :: frames)) s
    = (Main.Failed (Main.DetectionFailed e), s).
Proof.
  intro Hbad.
  destruct (cvtColor_refuses bgr2hsv f Hbad) as [e He].
  exists e. unfold main, Main.main. cbn [Main.capture_loop].
  assert (E : fst (detect {| self := TableDetector_init; frame := f |}) = Raised e).
  { unfold detect. rewrite detect_table_run. unfold detect_result, fst.
    cbn [frame]. rewrite He. reflexivity. }
  pose proof (process_frame_raised _ 1 s e E) as Hrun.
  unfold process_frame in Hrun. rewrite Hrun. reflexivity.
Qed.

(** X13. With an image that can be read and that the detector takes,
    [main] processes that one frame, waits for one key, whatever key it is,
    and destroys the windows; the capture device is not touched. *)
Theorem main_image_mode (c : Ascii.ascii) (path : String.string)
    (imread : String.string -> option ndarray)
    (camera : option (list ndarray)) (f : ndarray) (key : Z)
    (s : Main.Session) :
  imread (String.String c path) = Some f ->
  convertible f ->
  Main.next_key s = Some key ->
  exists s',
    main (Some (String.String c path)) imread camera s = (Main.Done tt, s')
    /\ Main.keys s' = tl (Main.keys s)
    /\ Main.destroyed s' = true
    /\ Main.released s' = Main.released s.
Proof.
  intros Hread Hf Hkey.
  destruct (detect_convertible {| self := TableDetector_init; frame := f |} Hf)
    as (oc & mask & E).
  destruct (process_frame_returned _ 0 s oc mask E)
    as (s1 & Hrun & _ & _ & Hkeys & _ & Hrel & _).
  rewrite Hkey in Hrun. unfold process_frame in Hrun.
  exists (Main.destroyAllWindows s1).
  unfold main, Main.main. rewrite Hread, Hrun.
  repeat split; assumption.
Qed.

End MainProperties.

(** ** main.py on concrete frames and sessions *)

Lemma black_frame_convertible : convertible Reference.black_frame.
Proof.
  split; [|split]; [vm_compute; discriminate | vm_compute; discriminate |].
  left. vm_compute. reflexivity.
Qed.

Lemma gray_frame_refused :
  rows Reference.gray_frame = 0%nat \/ cols Reference.gray_frame = 0%nat
  \/ (channels Reference.gray_frame <> 3%nat /\ channels Reference.gray_frame <> 4%nat).
Proof. right. right. split; vm_compute; discriminate. Qed.

Lemma process_frame_quit_key_witness :
  exists w' s',
    Main.process_frame Reference.bgr2hsv Reference.findContours
      Reference.contourArea Paint.drawContours Paint.approx_corners Paint.circle
      (Reference.world Reference.black_frame) 1
      (Paint.session true [Some 1048689])
    = (Main.Done false, w', s')
    /\ exists key,
         Main.next_key (Paint.session true [Some 1048689]) = Some key
         /\ (false = false <-> 0 < 1 /\ is_quit key)
         /\ Main.keys s' = tl (Main.keys (Paint.session true [Some 1048689])).
Proof.
  eexists. eexists.
  refine ((fun H => conj H
             (process_frame_quit_key Reference.bgr2hsv Reference.findContours
                Reference.contourArea Paint.drawContours Paint.approx_corners
                Paint.circle _ _ _ _ _ _ H)) _).
  vm_compute. reflexivity.
Defined.

Lemma process_frame_rejects_frame_witness :
  (rows Reference.gray_frame = 0%nat \/ cols Reference.gray_frame = 0%nat
   \/ (channels Reference.gray_frame <> 3%nat
       /\ channels Reference.gray_frame <> 4%nat))
  /\ exists e,
       Main.process_frame Reference.bgr2hsv Reference.findContours
         Reference.contourArea Paint.drawContours Paint.approx_corners
         Paint.circle (Reference.world Reference.gray_frame) 1
         (Paint.session true [Some 113])
       = (Main.Failed (Main.DetectionFailed e),
          Reference.world Reference.gray_frame, Paint.session true [Some 113]).
Proof.
  split; [exact gray_frame_refused|].
  exact (process_frame_rejects_frame Reference.bgr2hsv Reference.findContours
           Reference.contourArea Paint.drawContours Paint.approx_corners
           Paint.circle (Reference.world Reference.gray_frame) 1
           (Paint.session true [Some 113]) gray_frame_refused).
Defined.

Lemma process_frame_reports_table_witness :
  fst (detect_table Reference.bgr2hsv Reference.findContours
         Reference.contourArea (Reference.world Reference.speck_frame))
  = Returned (None, Reference.mask_of Reference.speck_frame)
  /\ Main.stdout
       (snd (Main.process_frame Reference.bgr2hsv Reference.findContours
               Reference.contourArea Paint.drawContours Paint.approx_corners
               Paint.circle (Reference.world Reference.speck_frame) 0
               (Paint.session false [])))
     = ["No table detected."%string]
  /\ forall c,
       In c (Reference.findContours (Reference.mask_of Reference.speck_frame)) ->
       (Reference.contourArea c < 1000)%Q.
Proof.
  assert (H : fst (detect_table Reference.bgr2hsv Reference.findContours
                     Reference.contourArea (Reference.world Reference.speck_frame))
              = Returned (None, Reference.mask_of Reference.speck_frame))
    by (vm_compute; reflexivity).
  split; [exact H|].
  destruct (process_frame_reports_table Reference.bgr2hsv Reference.findContours
              Reference.contourArea Paint.drawContours Paint.approx_corners
              Paint.circle (Reference.world Reference.speck_frame) 0
              (Paint.session false []) _ _ H) as (_ & _ & Hout & Hsmall).
  split; [exact Hout | exact Hsmall].
Defined.

Lemma capture_loop_stops_at_quit_witness :
  Forall convertible [Reference.black_frame]
  /\ convertible Reference.black_frame
  /\ Forall (fun k => ~ is_quit k) [-1]
  /\ is_quit 113
  /\ exists s',
       Main.capture_loop Reference.bgr2hsv Reference.findContours
         Reference.contourArea Paint.drawContours Paint.approx_corners
         Paint.circle TableDetector_init
         ([Reference.black_frame] ++ Reference.black_frame :: [Reference.gray_frame])
         (Paint.session true [Some (-1); Some 113; Some 7])
       = (Main.Done tt, s')
       /\ Main.keys s' = [Some 7].
Proof.
  assert (H1 : Forall convertible [Reference.black_frame])
    by (constructor; [exact black_frame_convertible | constructor]).
  assert (H2 : Forall (fun k => ~ is_quit k) [-1])
    by (constructor; [unfold is_quit; discriminate | constructor]).
  assert (H3 : is_quit 113) by reflexivity.
  split; [exact H1|]. split; [exact black_frame_convertible|].
  split; [exact H2|]. split; [exact H3|].
  destruct (capture_loop_stops_at_quit Reference.bgr2hsv Reference.findContours
              Reference.contourArea Paint.drawContours Paint.approx_corners
              Paint.circle TableDetector_init
              [Reference.black_frame] Reference.black_frame [Reference.gray_frame]
              [-1] 113 [Some 7] (Paint.session true [Some (-1); Some 113; Some 7])
              H1 black_frame_convertible eq_refl H2 H3 eq_refl)
    as (s' & Hrun & Hkeys & _).
  exists s'. split; [exact Hrun | exact Hkeys].
Defined.

Lemma capture_loop_reads_all_witness :
  Forall convertible [Reference.black_frame; Reference.black_frame]
  /\ Forall (fun k => exists key, k = Some key /\ ~ is_quit key)
       (Main.keys (Paint.session false [Some 32]))
  /\ exists s',
       Main.capture_loop Reference.bgr2hsv Reference.findContours
         Reference.contourArea Paint.drawContours Paint.approx_corners
         Paint.circle TableDetector_init
         [Reference.black_frame; Reference.black_frame]
         (Paint.session false [Some 32])
       = (Main.Done tt, s')
       /\ Main.keys s' = []
       /\ exists out,
            Main.stdout s' = out ++ ["Failed to grab frame"%string].
Proof.
  assert (H1 : Forall convertible [Reference.black_frame; Reference.black_frame])
    by (constructor; [exact black_frame_convertible|];
        constructor; [exact black_frame_convertible | constructor]).
  assert (H2 : Forall (fun k => exists key, k = Some key /\ ~ is_quit key)
                 (Main.keys (Paint.session false [Some 32]))).
  { constructor; [|constructor]. exists 32. split; [reflexivity|].
    unfold is_quit. discriminate. }
  split; [exact H1|]. split; [exact H2|].
  destruct (capture_loop_reads_all Reference.bgr2hsv Reference.findContours
              Reference.contourArea Paint.drawContours Paint.approx_corners
              Paint.circle TableDetector_init
              [Reference.black_frame; Reference.black_frame]
              (Paint.session false [Some 32]) H1 H2)
    as (s' & Hrun & Hkeys & out & Hout).
  exists s'. split; [exact Hrun|]. split; [exact Hkeys|].
  exists out. exact Hout.
Defined.

Lemma main_camera_cleans_up_witness :
  Forall convertible [Reference.black_frame]
  /\ Forall (fun k => k <> None) (Main.keys (Paint.session true [Some 113]))
  /\ exists s',
       Main.main Reference.bgr2hsv Reference.findContours
         Reference.contourArea Paint.drawContours Paint.approx_corners
         Paint.circle (Some ""%string) (fun _ => None)
         (Some [Reference.black_frame]) (Paint.session true [Some 113])
       = (Main.Done tt, s')
       /\ Main.released s' = true
       /\ Main.destroyed s' = true.
Proof.
  assert (H1 : Forall convertible [Reference.black_frame])
    by (constructor; [exact black_frame_convertible | constructor]).
  assert (H2 : Forall (fun k => k <> None)
                 (Main.keys (Paint.session true [Some 113])))
    by (constructor; [discriminate | constructor]).
  split; [exact H1|]. split; [exact H2|].
  exact (main_camera_cleans_up Reference.bgr2hsv Reference.findContours
           Reference.contourArea Paint.drawContours Paint.approx_corners
           Paint.circle (Some ""%string) (fun _ => None)
           [Reference.black_frame] (Paint.session true [Some 113])
           (or_intror eq_refl) H1 H2).
Defined.

Lemma main_error_skips_cleanup_witness :
  (rows Reference.gray_frame = 0%nat \/ cols Reference.gray_frame = 0%nat
   \/ (channels Reference.gray_frame <> 3%nat
       /\ channels Reference.gray_frame <> 4%nat))
  /\ exists e,
       Main.main Reference.bgr2hsv Reference.findContours
         Reference.contourArea Paint.drawContours Paint.approx_corners
         Paint.circle None (fun _ => None)
         (Some [Reference.gray_frame; Reference.black_frame])
         (Paint.session true [])
       = (Main.Failed (Main.DetectionFailed e), Paint.session true []).
Proof.
  split; [exact gray_frame_refused|].
  exact (main_error_skips_cleanup Reference.bgr2hsv Reference.findContours
           Reference.contourArea Paint.drawContours Paint.approx_corners
           Paint.circle (fun _ => None) Reference.gray_frame
           [Reference.black_frame] (Paint.session true []) gray_frame_refused).
Defined.

Lemma main_image_mode_witness :
  convertible Reference.black_frame
  /\ Main.next_key (Paint.session true [Some 113; Some 7]) = Some 113
  /\ exists s',
       Main.main Reference.bgr2hsv Reference.findContours
         Reference.contourArea Paint.drawContours Paint.approx_corners
         Paint.circle (Some "t.jpg"%string)
         (fun _ => Some Reference.black_frame) None
         (Paint.session true [Some 113; Some 7])
       = (Main.Done tt, s')
       /\ Main.keys s' = tl (Main.keys (Paint.session true [Some 113; Some 7]))
       /\ Main.destroyed s' = true
       /\ Main.released s' = Main.released (Paint.session true [Some 113; Some 7]).
Proof.
  split; [exact black_frame_convertible|]. split; [reflexivity|].
  exact (main_image_mode Reference.bgr2hsv Reference.findContours
           Reference.contourArea Paint.drawContours Paint.approx_corners
           Paint.circle _ _ (fun _ => Some Reference.black_frame)
           None Reference.black_frame 113 (Paint.session true [Some 113; Some 7])
           eq_refl black_frame_convertible eq_refl).
Defined.
